(** * A shallow embedding of [exchange/gemini.py]

    The module is a client of the Gemini REST API.  Public calls are plain
    GET requests; private calls carry a base64 JSON payload and its
    HMAC-SHA384 signature in the request headers.  The development models
    the Python values the module handles, the library functions it calls
    ([json.dumps], [base64.b64encode], [hmac.new(..., sha384).hexdigest()]),
    the world it talks to (clock, keyring, HTTP server) and then the
    functions of the module themselves, in the order of the source. *)

From Stdlib Require Import ZArith List String Ascii Bool Lia.
From Stdlib.Strings Require Import Byte.
From Stdlib Require Import QArith Qround Qabs Qpower Lqa DecimalString.
Import ListNotations.

Local Open Scope Z_scope.

(** ** Bytes *)

Definition bytes := list byte.

Definition Z_of_byte (b : byte) : Z := Z.of_N (Byte.to_N b).

Definition byte_of_Z (z : Z) : byte :=
  match Byte.of_N (Z.to_N (z mod 256)) with
  | Some b => b
  | None => x00
  end.

Definition bytes_of_string (s : string) : bytes := list_byte_of_string s.
Definition string_of_bytes (b : bytes) : string := string_of_list_byte b.

(** Big-endian encoding of [z] on [n] bytes, and its inverse. *)
Fixpoint be_bytes (n : nat) (z : Z) : bytes :=
  match n with
  | O => []
  | S k => byte_of_Z (Z.shiftr z (8 * Z.of_nat k)) :: be_bytes k z
  end.

Definition be_value (b : bytes) : Z :=
  fold_left (fun acc x => Z.lor (Z.shiftl acc 8) (Z_of_byte x)) b 0.

(** Lowercase hexadecimal, as [bytes.hex()] and [hexdigest()] print it. *)
Definition hex_digit (z : Z) : ascii :=
  if z <? 10 then ascii_of_N (Z.to_N (48 + z))
  else ascii_of_N (Z.to_N (87 + z)).

Fixpoint hex_of_bytes (b : bytes) : string :=
  match b with
  | [] => EmptyString
  | x :: r =>
      String (hex_digit (Z.shiftr (Z_of_byte x) 4))
        (String (hex_digit (Z.land (Z_of_byte x) 15)) (hex_of_bytes r))
  end.

(** ** [base64.b64encode]: the standard alphabet with [=] padding *)

Module Base64.

Definition alphabet : string :=
  "ABCDEFGHIJKLMNOPQRSTUVWXYZabcdefghijklmnopqrstuvwxyz0123456789+/".

Definition pad : byte := byte_of_Z 61.

Definition sextet (z : Z) : byte :=
  match String.get (Z.to_nat (Z.land z 63)) alphabet with
  | Some c => byte_of_ascii c
  | None => pad
  end.

Fixpoint b64encode (b : bytes) : bytes :=
  match b with
  | [] => []
  | [x] =>
      let n := Z.shiftl (Z_of_byte x) 16 in
      [sextet (Z.shiftr n 18); sextet (Z.shiftr n 12); pad; pad]
  | [x; y] =>
      let n := Z.lor (Z.shiftl (Z_of_byte x) 16) (Z.shiftl (Z_of_byte y) 8) in
      [sextet (Z.shiftr n 18); sextet (Z.shiftr n 12);
       sextet (Z.shiftr n 6); pad]
  | x :: y :: z :: r =>
      let n := Z.lor (Z.lor (Z.shiftl (Z_of_byte x) 16)
                            (Z.shiftl (Z_of_byte y) 8)) (Z_of_byte z) in
      sextet (Z.shiftr n 18) :: sextet (Z.shiftr n 12)
        :: sextet (Z.shiftr n 6) :: sextet n :: b64encode r
  end.

End Base64.

(** ** [hashlib.sha384]: SHA-512 with its own initial state, cut to 48 bytes *)

Module SHA384.

Definition w64 (z : Z) : Z := z mod 2 ^ 64.
Definition add64 (x y : Z) : Z := w64 (x + y).
Definition rotr (n x : Z) : Z :=
  Z.lor (Z.shiftr x n) (w64 (Z.shiftl x (64 - n))).

Definition Ch (x y z : Z) : Z :=
  Z.lxor (Z.land x y) (Z.land (Z.lxor x (Z.ones 64)) z).
Definition Maj (x y z : Z) : Z :=
  Z.lxor (Z.lxor (Z.land x y) (Z.land x z)) (Z.land y z).
Definition Sigma0 (x : Z) : Z :=
  Z.lxor (Z.lxor (rotr 28 x) (rotr 34 x)) (rotr 39 x).
Definition Sigma1 (x : Z) : Z :=
  Z.lxor (Z.lxor (rotr 14 x) (rotr 18 x)) (rotr 41 x).
Definition sigma0 (x : Z) : Z :=
  Z.lxor (Z.lxor (rotr 1 x) (rotr 8 x)) (Z.shiftr x 7).
Definition sigma1 (x : Z) : Z :=
  Z.lxor (Z.lxor (rotr 19 x) (rotr 61 x)) (Z.shiftr x 6).

Definition K : list Z := [
  0x428a2f98d728ae22; 0x7137449123ef65cd; 0xb5c0fbcfec4d3b2f; 0xe9b5dba58189dbbc;
  0x3956c25bf348b538; 0x59f111f1b605d019; 0x923f82a4af194f9b; 0xab1c5ed5da6d8118;
  0xd807aa98a3030242; 0x12835b0145706fbe; 0x243185be4ee4b28c; 0x550c7dc3d5ffb4e2;
  0x72be5d74f27b896f; 0x80deb1fe3b1696b1; 0x9bdc06a725c71235; 0xc19bf174cf692694;
  0xe49b69c19ef14ad2; 0xefbe4786384f25e3; 0x0fc19dc68b8cd5b5; 0x240ca1cc77ac9c65;
  0x2de92c6f592b0275; 0x4a7484aa6ea6e483; 0x5cb0a9dcbd41fbd4; 0x76f988da831153b5;
  0x983e5152ee66dfab; 0xa831c66d2db43210; 0xb00327c898fb213f; 0xbf597fc7beef0ee4;
  0xc6e00bf33da88fc2; 0xd5a79147930aa725; 0x06ca6351e003826f; 0x142929670a0e6e70;
  0x27b70a8546d22ffc; 0x2e1b21385c26c926; 0x4d2c6dfc5ac42aed; 0x53380d139d95b3df;
  0x650a73548baf63de; 0x766a0abb3c77b2a8; 0x81c2c92e47edaee6; 0x92722c851482353b;
  0xa2bfe8a14cf10364; 0xa81a664bbc423001; 0xc24b8b70d0f89791; 0xc76c51a30654be30;
  0xd192e819d6ef5218; 0xd69906245565a910; 0xf40e35855771202a; 0x106aa07032bbd1b8;
  0x19a4c116b8d2d0c8; 0x1e376c085141ab53; 0x2748774cdf8eeb99; 0x34b0bcb5e19b48a8;
  0x391c0cb3c5c95a63; 0x4ed8aa4ae3418acb; 0x5b9cca4f7763e373; 0x682e6ff3d6b2b8a3;
  0x748f82ee5defb2fc; 0x78a5636f43172f60; 0x84c87814a1f0ab72; 0x8cc702081a6439ec;
  0x90befffa23631e28; 0xa4506cebde82bde9; 0xbef9a3f7b2c67915; 0xc67178f2e372532b;
  0xca273eceea26619c; 0xd186b8c721c0c207; 0xeada7dd6cde0eb1e; 0xf57d4f7fee6ed178;
  0x06f067aa72176fba; 0x0a637dc5a2c898a6; 0x113f9804bef90dae; 0x1b710b35131c471b;
  0x28db77f523047d84; 0x32caab7b40c72493; 0x3c9ebe0a15c9bebc; 0x431d67c49c100d4c;
  0x4cc5d4becb3e42b6; 0x597f299cfc657e2a; 0x5fcb6fab3ad6faec; 0x6c44198c4a475817 ].

Definition H0 : list Z := [
  0xcbbb9d5dc1059ed8; 0x629a292a367cd507; 0x9159015a3070dd17;
  0x152fecd8f70e5939; 0x67332667ffc00b31; 0x8eb44a8768581511;
  0xdb0c2e0d64f98fa7; 0x47b5481dbefa4fa4 ].

Definition block_size : nat := 128.
Definition digest_size : nat := 48.

(** The message, a [0x80] byte, zeros up to 112 modulo 128, and the
    length in bits on 16 bytes. *)
Definition padding (len : nat) : bytes :=
  let r := (len mod 128)%nat in
  let zeros := (if (r <? 112)%nat then 111 - r else 239 - r)%nat in
  byte_of_Z 128 :: repeat x00 zeros ++ be_bytes 16 (8 * Z.of_nat len).

Fixpoint chunks (fuel size : nat) (b : bytes) : list bytes :=
  match fuel with
  | O => []
  | S f =>
      match b with
      | [] => []
      | _ => firstn size b :: chunks f size (skipn size b)
      end
  end.

Definition words_of_block (blk : bytes) : list Z :=
  map be_value (chunks 16 8 blk).

(** The message schedule: each new word is computed from a window of
    the last sixteen. *)
Fixpoint expand (n : nat) (w : list Z) : list Z :=
  match n with
  | O => []
  | S k =>
      match w with
      | [] => []
      | w16 :: rest =>
          let x := add64 (add64 (sigma1 (nth 13 rest 0)) (nth 8 rest 0))
                         (add64 (sigma0 (nth 0 rest 0)) w16) in
          x :: expand k (rest ++ [x])
      end
  end.

Definition schedule (blk : bytes) : list Z :=
  let w := words_of_block blk in w ++ expand 64 w.

Record regs := Regs { ra : Z; rb : Z; rc : Z; rd : Z;
                      re : Z; rf : Z; rg : Z; rh : Z }.

Definition round (s : regs) (kw : Z * Z) : regs :=
  let t1 := add64 (add64 (add64 (rh s) (Sigma1 (re s)))
                         (add64 (Ch (re s) (rf s) (rg s)) (fst kw)))
                  (snd kw) in
  let t2 := add64 (Sigma0 (ra s)) (Maj (ra s) (rb s) (rc s)) in
  Regs (add64 t1 t2) (ra s) (rb s) (rc s) (add64 (rd s) t1)
       (re s) (rf s) (rg s).

Definition regs_of (h : list Z) : regs :=
  Regs (nth 0 h 0) (nth 1 h 0) (nth 2 h 0) (nth 3 h 0)
       (nth 4 h 0) (nth 5 h 0) (nth 6 h 0) (nth 7 h 0).

Definition list_of (s : regs) : list Z :=
  [ra s; rb s; rc s; rd s; re s; rf s; rg s; rh s].

Definition compress (h : list Z) (blk : bytes) : list Z :=
  let s := fold_left round (combine K (schedule blk)) (regs_of h) in
  map (fun p => add64 (fst p) (snd p)) (combine h (list_of s)).

Definition digest (msg : bytes) : bytes :=
  let padded := msg ++ padding (List.length msg) in
  let h := fold_left compress
             (chunks (List.length padded) block_size padded) H0 in
  firstn digest_size (flat_map (be_bytes 8) h).

End SHA384.

(** ** [hmac.new(key, msg, sha384)] *)

Module HMAC.

Definition xor_with (c : Z) (k : bytes) : bytes :=
  map (fun b => byte_of_Z (Z.lxor (Z_of_byte b) c)) k.

(** A key longer than a block is hashed first; the key is then filled
    with zero bytes up to the block size. *)
Definition block_key (key : bytes) : bytes :=
  let k := if (SHA384.block_size <? List.length key)%nat
           then SHA384.digest key else key in
  k ++ repeat x00 (SHA384.block_size - List.length k).

Definition digest (key msg : bytes) : bytes :=
  let k := block_key key in
  SHA384.digest (xor_with 0x5c k ++ SHA384.digest (xor_with 0x36 k ++ msg)).

Definition hexdigest (key msg : bytes) : string :=
  hex_of_bytes (digest key msg).

End HMAC.

Local Open Scope string_scope.

(** ** Python values

    The objects that flow through the module: [None], booleans, integers,
    text, byte strings, lists, and dictionaries with text keys.  A [str] is
    held as the bytes of its UTF-8 encoding, so [s.encode('utf-8')] reads
    those bytes off.  A dictionary keeps its entries in insertion order, as
    the entries of a [dict] are iterated (and serialised) in that order.
    Floating-point numbers are left out. *)

#[warnings="-register-all"]
Inductive pyobj : Type :=
| PNone
| PBool (b : bool)
| PInt (n : Z)
| PStr (s : string)
| PBytes (b : bytes)
| PList (l : list pyobj)
| PDict (d : list (string * pyobj)).

Definition dict := list (string * pyobj).

Inductive exn : Type :=
| TypeError
| AttributeError
| KeyError (key : string)
| RuntimeError (msg : string)
| JSONDecodeError
| RequestException.

Inductive result (A : Type) : Type :=
| Ok (a : A)
| Raise (e : exn).
Arguments Ok {A} a.
Arguments Raise {A} e.

Definition rbind {A B} (r : result A) (k : A -> result B) : result B :=
  match r with
  | Ok a => k a
  | Raise e => Raise e
  end.

Declare Scope result_scope.
Delimit Scope result_scope with result.
Notation "x <- r ;; k" := (rbind r (fun x => k))
  (at level 61, r at next level, right associativity) : result_scope.

Definition encode_utf8 (s : string) : bytes := bytes_of_string s.

(** [bool(x)] *)
Definition truthy (x : pyobj) : bool :=
  match x with
  | PNone => false
  | PBool b => b
  | PInt n => negb (n =? 0)%Z
  | PStr s => negb (s =? EmptyString)
  | PBytes b => match b with [] => false | _ => true end
  | PList l => match l with [] => false | _ => true end
  | PDict d => match d with [] => false | _ => true end
  end.

(** [k in d], [d[k]] and [d[k] = v] on a dictionary. *)
Fixpoint dict_get (d : dict) (k : string) : option pyobj :=
  match d with
  | [] => None
  | (k', v) :: r => if k' =? k then Some v else dict_get r k
  end.

Definition dict_contains (d : dict) (k : string) : bool :=
  match dict_get d k with Some _ => true | None => false end.

Fixpoint dict_set (d : dict) (k : string) (v : pyobj) : dict :=
  match d with
  | [] => [(k, v)]
  | (k', v') :: r =>
      if k' =? k then (k', v) :: r else (k', v') :: dict_set r k v
  end.

(** [needle in haystack] on text. *)
Definition str_contains (haystack needle : string) : bool :=
  match index 0 needle haystack with Some _ => true | None => false end.

Definition str_of_Z (n : Z) : string :=
  DecimalString.NilZero.string_of_int (Z.to_int n).

(** ** [json.dumps] with its default options

    Separators are [", "] and [": "]; every character outside the range
    from space to tilde is escaped ([ensure_ascii]); an object that is not
    of a JSON type raises [TypeError]. *)

Module Json.

Local Open Scope Z_scope.

Definition hex4 (n : Z) : string :=
  String (hex_digit (Z.land (Z.shiftr n 12) 15))
    (String (hex_digit (Z.land (Z.shiftr n 8) 15))
       (String (hex_digit (Z.land (Z.shiftr n 4) 15))
          (String (hex_digit (Z.land n 15)) EmptyString))).

Definition uescape (n : Z) : string := "\u" ++ hex4 n.

Definition dquote : string := String (ascii_of_N 34) EmptyString.

(** The characters of a text, read off its UTF-8 bytes.  A byte that
    does not start a complete sequence stands for itself; no [str]
    contains one. *)
Definition cont (b : Z) : Z := Z.land b 63.

Fixpoint code_points (b : list Z) : list Z :=
  match b with
  | [] => []
  | x :: r =>
      if x <? 192 then x :: code_points r
      else if x <? 224 then
        match r with
        | y :: r1 =>
            Z.lor (Z.shiftl (Z.land x 31) 6) (cont y) :: code_points r1
        | _ => x :: code_points r
        end
      else if x <? 240 then
        match r with
        | y :: z :: r2 =>
            Z.lor (Z.lor (Z.shiftl (Z.land x 15) 12) (Z.shiftl (cont y) 6))
                  (cont z) :: code_points r2
        | _ => x :: code_points r
        end
      else
        match r with
        | y :: z :: w :: r3 =>
            Z.lor (Z.lor (Z.lor (Z.shiftl (Z.land x 7) 18)
                                (Z.shiftl (cont y) 12))
                         (Z.shiftl (cont z) 6))
                  (cont w) :: code_points r3
        | _ => x :: code_points r
        end
  end.

Definition escape_char (c : Z) : string :=
  if c =? 34 then "\" ++ dquote else
  if c =? 92 then "\\" else
  if c =? 8 then "\b" else
  if c =? 12 then "\f" else
  if c =? 10 then "\n" else
  if c =? 13 then "\r" else
  if c =? 9 then "\t" else
  if (32 <=? c) && (c <=? 126) then String (ascii_of_N (Z.to_N c)) EmptyString else
  if c <? 65536 then uescape c else
  let n := c - 65536 in
  uescape (Z.lor 55296 (Z.land (Z.shiftr n 10) 1023))
    ++ uescape (Z.lor 56320 (Z.land n 1023)).

Definition encode_str (s : string) : string :=
  dquote ++ concat EmptyString
              (map escape_char
                 (code_points (map Z_of_byte (bytes_of_string s))))
         ++ dquote.

Fixpoint dumps (o : pyobj) : result string :=
  match o with
  | PNone => Ok "null"
  | PBool true => Ok "true"
  | PBool false => Ok "false"
  | PInt n => Ok (str_of_Z n)
  | PStr s => Ok (encode_str s)
  | PBytes _ => Raise TypeError
  | PList l =>
      (items <- (fix go (l : list pyobj) : result (list string) :=
                   match l with
                   | [] => Ok []
                   | x :: r =>
                       (sx <- dumps x ;; sr <- go r ;; Ok (sx :: sr))%result
                   end) l ;;
       Ok ("[" ++ concat ", " items ++ "]"))%result
  | PDict d =>
      (items <- (fix go (d : list (string * pyobj)) : result (list string) :=
                   match d with
                   | [] => Ok []
                   | (k, v) :: r =>
                       (sv <- dumps v ;; sr <- go r ;;
                        Ok ((encode_str k ++ ": " ++ sv) :: sr))%result
                   end) d ;;
       Ok ("{" ++ concat ", " items ++ "}"))%result
  end.

End Json.

(** [a == b] on Python values: [True] and [False] are the integers 1 and
    0, text never equals bytes, lists are compared entry by entry and
    dictionaries regardless of the order of their entries. *)
Fixpoint bytes_eqb (x y : bytes) : bool :=
  match x, y with
  | [], [] => true
  | a :: x', b :: y' => Byte.eqb a b && bytes_eqb x' y'
  | _, _ => false
  end.

Fixpoint py_eq (a b : pyobj) {struct a} : bool :=
  match a, b with
  | PNone, PNone => true
  | PBool x, PBool y => Bool.eqb x y
  | PBool x, PInt n => (Z.b2z x =? n)%Z
  | PInt n, PBool y => (n =? Z.b2z y)%Z
  | PInt n, PInt m => (n =? m)%Z
  | PStr s, PStr t => s =? t
  | PBytes x, PBytes y => bytes_eqb x y
  | PList l, PList m =>
      (fix go (l m : list pyobj) : bool :=
         match l, m with
         | [], [] => true
         | x :: l', y :: m' => py_eq x y && go l' m'
         | _, _ => false
         end) l m
  | PDict d, PDict e =>
      (List.length d =? List.length e)%nat &&
      (fix go (d : list (string * pyobj)) : bool :=
         match d with
         | [] => true
         | (k, v) :: d' =>
             match dict_get e k with
             | Some w => py_eq v w
             | None => false
             end && go d'
         end) d
  | _, _ => false
  end.

(** [item in data] and [data[key]] for a text [item] or [key], on any
    object: membership is by key on a dictionary, by entry on a list and
    by substring on a text; only a dictionary can be indexed by a text. *)
Definition contains (data : pyobj) (item : string) : result bool :=
  match data with
  | PDict d => Ok (dict_contains d item)
  | PList l => Ok (existsb (fun x => py_eq x (PStr item)) l)
  | PStr s => Ok (str_contains s item)
  | _ => Raise TypeError
  end.

Definition getitem (data : pyobj) (key : string) : result pyobj :=
  match data with
  | PDict d =>
      match dict_get d key with
      | Some v => Ok v
      | None => Raise (KeyError key)
      end
  | _ => Raise TypeError
  end.

(** ** The world around the module

    What the module reads and what it talks to: the wall clock
    ([time.time()], a reading per call, in seconds), the keyring
    ([keyring.get_password]), the HTTP server behind [requests.request]
    (its answer may depend on the requests sent before), the JSON decoder
    [json.loads] and the builtin [repr]. *)

Record Request : Type := {
  method : string;
  url : string;
  params : option dict;
  headers : option dict;
  data : option bytes
}.

Record Response : Type := {
  status_code : Z;
  text : string
}.

Record Env : Type := {
  time_time : nat -> Q;
  get_password : string -> string -> option string;
  server : list Request -> Request -> result Response;
  json_loads : string -> result pyobj;
  repr : pyobj -> string
}.

(** The state a run threads through: how many times the clock was read
    and the requests handed to [requests.request], oldest first. *)
Record State : Type := {
  reads : nat;
  sent : list Request
}.

Definition M (A : Type) : Type := State -> result A * State.

Definition ret {A} (a : A) : M A := fun st => (Ok a, st).

Definition bind {A B} (m : M A) (k : A -> M B) : M B :=
  fun st =>
    match m st with
    | (Ok a, st') => k a st'
    | (Raise e, st') => (Raise e, st')
    end.

Definition lift {A} (r : result A) : M A := fun st => (r, st).

Declare Scope m_scope.
Delimit Scope m_scope with M.
Notation "x <- m ;; k" := (bind m (fun x => k))
  (at level 61, m at next level, right associativity) : m_scope.

(** [int(x)]: the integer part, towards zero. *)
Definition int_of_Q (x : Q) : Z := Z.quot (Qnum x) (Zpos (Qden x)).

(** ** Floating-point numbers

    A [float] is a binary64 number; here it is the rational it denotes.
    An operation on floats is the exact operation followed by [round]:
    to the nearest multiple of the quantum of the result, the even
    multiple when two are as near.  The quantum of [x] is [2 ^ (e - 52)]
    for [2 ^ e <= |x| < 2 ^ (e + 1)], and [2 ^ -1074] at least.  The
    exponent has no upper bound here: the readings of a clock in seconds,
    and their products by 1000, are far below the largest float. *)

Module Float64.

Local Open Scope Q_scope.

(** The nearest integer, the even one of two. *)
Definition rne (x : Q) : Z :=
  let f := Qfloor x in
  match Qcompare (x - inject_Z f) (1 # 2) with
  | Lt => f
  | Gt => (f + 1)%Z
  | Eq => if Z.even f then f else (f + 1)%Z
  end.

(** The [e] with [2 ^ e <= x < 2 ^ (e + 1)], for a positive [x]. *)
Definition ilog2 (x : Q) : Z :=
  let e0 := (Z.log2 (Qnum x) - Z.log2 (Zpos (Qden x)))%Z in
  if Qle_bool (2 ^ e0) x then e0 else (e0 - 1)%Z.

Definition quantum (x : Q) : Z := Z.max (ilog2 (Qabs x) - 52) (-1074).

Definition round (x : Q) : Q :=
  inject_Z (rne (x / 2 ^ quantum x)) * 2 ^ quantum x.

Definition mul (x y : Q) : Q := round (x * y).

End Float64.

(** [int(t * 1000)] for a reading [t] of the clock, which [time.time()]
    returns as the float nearest to it. *)
Definition to_ms (t : Q) : Z :=
  int_of_Q (Float64.mul (Float64.round t) 1000%Q).

(** ** The module *)

Definition BASE_URL : string := "https://api.sandbox.gemini.com".
Definition API_VERSION : string := "v1".

Definition KEYRING_NAMESPACE : string := "gemini_sandbox".
Definition KEYRING_API_KEY : string := "api_key".
Definition KEYRING_API_SECRET : string := "api_secret".

Section Functions.

Variable env : Env.

(** [str(x)], which is what [format] puts in place of a [{}]. *)
Definition py_str (x : pyobj) : string :=
  match x with
  | PNone => "None"
  | PBool true => "True"
  | PBool false => "False"
  | PInt n => str_of_Z n
  | PStr s => s
  | _ => repr env x
  end.

Definition get_timestamp_ms : M Z :=
  fun st =>
    (Ok (to_ms (time_time env (reads st))),
     {| reads := S (reads st); sent := sent st |}).

Definition requests_request (req : Request) : M Response :=
  fun st =>
    (server env (sent st) req,
     {| reads := reads st; sent := sent st ++ [req] |}).

Definition parse_response (response : Response) : result pyobj :=
  (data <- json_loads env (text response) ;;
   has_result <- contains data "result" ;;
   is_error <- (if has_result
                then (r <- getitem data "result" ;; Ok (py_eq r (PStr "error")))
                else Ok false) ;;
   if is_error
   then (reason <- getitem data "reason" ;;
         message <- getitem data "message" ;;
         Raise (RuntimeError (py_str reason ++ ": " ++ py_str message)))
   else Ok data)%result.

Definition public_req (url_path : string) (parameters : dict) : M pyobj :=
  (let url := BASE_URL ++ "/" ++ API_VERSION ++ "/" ++ url_path in
   response <- requests_request
                 {| method := "GET"; url := url; params := Some parameters;
                    headers := None; data := None |} ;;
   lift (parse_response response))%M.

Definition private_req (url_path : string) (parameters : dict) : M pyobj :=
  (let version_path := "/" ++ API_VERSION ++ "/" ++ url_path in
   let parameters := dict_set parameters "request" (PStr version_path) in
   nonce <- get_timestamp_ms ;;
   let parameters := dict_set parameters "nonce" (PInt nonce) in
   param_json <- lift (Json.dumps (PDict parameters)) ;;
   let b64 := Base64.b64encode (encode_utf8 param_json) in
   let api_secret := get_password env KEYRING_NAMESPACE KEYRING_API_SECRET in
   signature <- lift (match api_secret with
                      | Some secret =>
                          Ok (HMAC.hexdigest (encode_utf8 secret) b64)
                      | None => Raise AttributeError
                      end) ;;
   let api_key := get_password env KEYRING_NAMESPACE KEYRING_API_KEY in
   let headers :=
     [ ("Content-Type", PStr "text/plain");
       ("Content-Length", PStr "0");
       ("X-GEMINI-APIKEY",
         match api_key with Some k => PStr k | None => PNone end);
       ("X-GEMINI-PAYLOAD", PBytes b64);
       ("X-GEMINI-SIGNATURE", PStr signature);
       ("Cache-Control", PStr "no-cache") ] in
   let url := BASE_URL ++ version_path in
   response <- requests_request
                 {| method := "POST"; url := url; params := None;
                    headers := Some headers; data := None |} ;;
   lift (parse_response response))%M.

(** The parameters [new_order] hands to [private_req]. *)
Definition new_order_params
    (symbol amount price side client_id : pyobj) : dict :=
  let params :=
    [ ("symbol", PStr (py_str symbol));
      ("amount", PStr (py_str amount));
      ("price", PStr (py_str price));
      ("side", side);
      ("type", PStr "exchange limit");
      ("options", PList []) ] in
  if truthy client_id
  then dict_set params "client_order_id" client_id
  else params.

Definition new_order (symbol amount price side client_id : pyobj) : M pyobj :=
  private_req "order/new"
    (new_order_params symbol amount price side client_id).

End Functions.

(** ** Order records and the trade manager *)

(** A finite [Decimal]: [coefficient * 10 ^ exponent].  Two decimals are
    equal, and are the same dictionary key, when they denote the same
    number. *)
Record decimal : Type := {
  coefficient : Z;
  exponent : Z
}.

Definition decimal_eqb (x y : decimal) : bool :=
  let m := Z.min (exponent x) (exponent y) in
  (coefficient x * 10 ^ (exponent x - m)
     =? coefficient y * 10 ^ (exponent y - m))%Z.

(** An order id, as [read_field(data, 'order_id', Decimal)] leaves it:
    a decimal, or [None] when the field is absent. *)
Definition order_key := option decimal.

Definition key_eqb (x y : order_key) : bool :=
  match x, y with
  | None, None => true
  | Some a, Some b => decimal_eqb a b
  | _, _ => false
  end.

Module Order.

Record t : Type := {
  price : decimal;
  amount : option decimal;
  id : order_key;
  client_id : option decimal;
  symbol : pyobj;
  exchange : pyobj;
  avg_execution_price : option decimal;
  side : pyobj;
  type : pyobj;
  options : pyobj;
  timestamp : option decimal;
  timestamp_ms : option decimal;
  is_live : option bool;
  is_cancelled : option bool;
  executed_amount : option decimal;
  remaining_amount : option decimal;
  original_amount : option decimal
}.

End Order.

Module OrderBook.

Record t : Type := {
  symbol : pyobj;
  limit_bids : Z;
  limit_asks : Z;
  bids : option (list Order.t);
  asks : option (list Order.t);
  last_request_ts : option Z
}.

Definition init (symbol : pyobj) : t :=
  {| symbol := symbol; limit_bids := 50; limit_asks := 50;
     bids := None; asks := None; last_request_ts := None |}.

End OrderBook.

(** What [buy_orders] and [sell_orders] hold: the [OrderedDict] the
    constructor creates, keyed by order id, or the list that
    [cancel_session] and [cancel_all] put in its place. *)
Inductive orders : Type :=
| OrderedDict (d : list (order_key * Order.t))
| PyList (l : list Order.t).

Fixpoint odict_get (d : list (order_key * Order.t)) (k : order_key)
  : option Order.t :=
  match d with
  | [] => None
  | (k', v) :: r => if key_eqb k' k then Some v else odict_get r k
  end.

Fixpoint odict_set (d : list (order_key * Order.t)) (k : order_key)
    (v : Order.t) : list (order_key * Order.t) :=
  match d with
  | [] => [(k, v)]
  | (k', v') :: r =>
      if key_eqb k' k then (k', v) :: r else (k', v') :: odict_set r k v
  end.

(** [c[k] = v]: a list cannot be indexed by a decimal or by [None]. *)
Definition orders_setitem (c : orders) (k : order_key) (v : Order.t)
  : result orders :=
  match c with
  | OrderedDict d => Ok (OrderedDict (odict_set d k v))
  | PyList _ => Raise TypeError
  end.

Module TradeManager.

Record t : Type := {
  order_book : OrderBook.t;
  symbol : pyobj;
  buy_orders : orders;
  sell_orders : orders
}.

Definition init (symbol : pyobj) : t :=
  {| order_book := OrderBook.init symbol;
     symbol := symbol;
     buy_orders := OrderedDict [];
     sell_orders := OrderedDict [] |}.

Definition set_buy_orders (self : t) (c : orders) : t :=
  {| order_book := order_book self; symbol := symbol self;
     buy_orders := c; sell_orders := sell_orders self |}.

Definition set_sell_orders (self : t) (c : orders) : t :=
  {| order_book := order_book self; symbol := symbol self;
     buy_orders := buy_orders self; sell_orders := c |}.

Section Methods.

Variable env : Env.

Definition cancel_session (self : t) : M t :=
  (_ <- private_req env "order/cancel/session" [] ;;
   ret (set_sell_orders (set_buy_orders self (PyList [])) (PyList [])))%M.

Definition cancel_all (self : t) : M t :=
  (_ <- private_req env "orer/cancel/all" [] ;;
   ret (set_sell_orders (set_buy_orders self (PyList [])) (PyList [])))%M.

Definition _update_order (self : t) (order : Order.t) : result t :=
  if negb (py_eq (Order.symbol order) (symbol self)) then Ok self
  else if py_eq (Order.side order) (PStr "buy") then
    (c <- orders_setitem (buy_orders self) (Order.id order) order ;;
     Ok (set_buy_orders self c))%result
  else if py_eq (Order.side order) (PStr "sell") then
    (c <- orders_setitem (sell_orders self) (Order.id order) order ;;
     Ok (set_sell_orders self c))%result
  else
    match Order.side order with
    | PStr s => Raise (RuntimeError ("Unkown order side: " ++ s))
    | _ => Raise TypeError
    end.

End Methods.

End TradeManager.

(** ** Optional fields and the fund manager *)

(** [read_field(data, field, ctor)]: the entry [field] of [data] passed
    through [ctor], or [None] when [data] has no such entry.  A call with
    no [ctor] returns the entry as it is, which is the call with [Ok] as
    [ctor]. *)
Definition read_field {A : Type} (data : pyobj) (field : string)
    (ctor : pyobj -> result A) : result (option A) :=
  (present <- contains data field ;;
   if present
   then (v <- getitem data field ;; a <- ctor v ;; Ok (Some a))
   else Ok None)%result.

(** [bool] as a [ctor]. *)
Definition bool_ctor (v : pyobj) : result bool := Ok (truthy v).

Module CurrencyBalance.

Record t : Type := {
  currency : pyobj;
  amount : decimal;
  available : decimal;
  withdrawable : decimal
}.

End CurrencyBalance.

Module FundManager.

Record t : Type := {
  balances : option (list CurrencyBalance.t);
  last_update : option Z;
  withdrawals : list pyobj
}.

Definition init : t :=
  {| balances := None; last_update := None; withdrawals := [] |}.

Section Methods.

Variable env : Env.

(** [withdraw] returns the answer of the exchange; the manager it leaves
    is returned beside it. *)
Definition withdraw (self : t) (address currency amount : pyobj)
  : M (pyobj * t) :=
  (let params := [ ("address", address); ("amount", amount) ] in
   data <- private_req env ("withdraw/" ++ py_str env currency) params ;;
   ret (data,
        {| balances := balances self;
           last_update := last_update self;
           withdrawals := (withdrawals self ++ [data])%list |}))%M.

End Methods.

End FundManager.

(** ** Sample worlds

    Small worlds on which the functions are run in the examples below.  The
    clock starts at [t0] seconds and moves by [dt] seconds per reading; the
    server answers every request with the same body; the decoder knows the
    texts of a few JSON values. *)

Definition error_obj : pyobj :=
  PDict [ ("result", PStr "error"); ("reason", PStr "InvalidSignature");
          ("message", PStr "bad sig") ].

Definition ticker_obj : pyobj :=
  PDict [ ("bid", PStr "100.5"); ("ask", PStr "101.0"); ("last", PStr "100.8") ].

Definition known_values : list pyobj :=
  [ error_obj; ticker_obj; PDict []; PList []; PInt 5 ].

Definition text_of (v : pyobj) : string :=
  match Json.dumps v with
  | Ok s => s
  | Raise _ => EmptyString
  end.

Definition sample_loads (s : string) : result pyobj :=
  match find (fun v => text_of v =? s) known_values with
  | Some v => Ok v
  | None => Raise JSONDecodeError
  end.

Definition sample_keyring (key secret : option string)
    (namespace name : string) : option string :=
  if namespace =? KEYRING_NAMESPACE then
    if name =? KEYRING_API_KEY then key
    else if name =? KEYRING_API_SECRET then secret
    else None
  else None.

Definition sample_env (t0 dt : Q) (key secret : option string)
    (body : pyobj) : Env :=
  {| time_time := fun n => (t0 + inject_Z (Z.of_nat n) * dt)%Q;
     get_password := sample_keyring key secret;
     server := fun _ _ => Ok {| status_code := 200; text := text_of body |};
     json_loads := sample_loads;
     repr := fun _ => "<object>" |}.

Definition fresh : State := {| reads := 0; sent := [] |}.

Definition sample_order (symbol side : pyobj) (n : Z) : Order.t :=
  {| Order.price := {| coefficient := 900000; exponent := -2 |};
     Order.amount := None;
     Order.id := Some {| coefficient := n; exponent := 0 |};
     Order.client_id := None;
     Order.symbol := symbol;
     Order.exchange := PStr "gemini";
     Order.avg_execution_price := None;
     Order.side := side;
     Order.type := PStr "exchange limit";
     Order.options := PList [];
     Order.timestamp := None;
     Order.timestamp_ms := None;
     Order.is_live := Some true;
     Order.is_cancelled := Some false;
     Order.executed_amount := None;
     Order.remaining_amount := None;
     Order.original_amount := None |}.

(** ** Vocabulary of the statements *)

(** The mapping [private_req] serialises: the caller's parameters with the
    entries [request] and [nonce] set, in this order. *)
Definition request_params (url_path : string) (parameters : dict) (nonce : Z)
  : dict :=
  dict_set (dict_set parameters "request"
              (PStr ("/" ++ API_VERSION ++ "/" ++ url_path)))
           "nonce" (PInt nonce).

(** The requests handed to the transport between two states. *)
Definition issued (st st' : State) : list Request :=
  skipn (List.length (sent st)) (sent st').

(** The header names as the specification lists them. *)
Definition spec_header_names : list string :=
  [ "Content-Type"; "Content-Length"; "X-API-KEY"; "X-API-PAYLOAD";
    "X-API-SIGNATURE"; "Cache-Control" ].

(** A decoded response is an error envelope when it is an object whose
    [result] entry is the text [error]. *)
Definition error_envelope (data : pyobj) : bool :=
  match data with
  | PDict d =>
      match dict_get d "result" with
      | Some v => py_eq v (PStr "error")
      | None => false
      end
  | _ => false
  end.

(** The decoded values on which the membership test of [parse_response]
    is defined and, outside an object, finds no [result]: objects, lists
    with no entry equal to the text [result], texts in which [result] does
    not occur. *)
Definition plain_payload (data : pyobj) : bool :=
  match data with
  | PDict _ => true
  | PList l => negb (existsb (fun x => py_eq x (PStr "result")) l)
  | PStr s => negb (str_contains s "result")
  | _ => false
  end.

Definition lowercase_hex (s : string) : Prop :=
  Forall (fun c => In c (list_ascii_of_string "0123456789abcdef"))
         (list_ascii_of_string s).

(** The request [private_req] hands to the transport once the parameters
    are serialised to [param_json] and the secret is [secret]. *)
Definition signed_request (env : Env) (url_path param_json secret : string)
  : Request :=
  let b64 := Base64.b64encode (encode_utf8 param_json) in
  {| method := "POST";
     url := BASE_URL ++ "/" ++ API_VERSION ++ "/" ++ url_path;
     params := None;
     headers :=
       Some [ ("Content-Type", PStr "text/plain");
              ("Content-Length", PStr "0");
              ("X-GEMINI-APIKEY",
                match get_password env KEYRING_NAMESPACE KEYRING_API_KEY with
                | Some k => PStr k
                | None => PNone
                end);
              ("X-GEMINI-PAYLOAD", PBytes b64);
              ("X-GEMINI-SIGNATURE",
                PStr (HMAC.hexdigest (encode_utf8 secret) b64));
              ("Cache-Control", PStr "no-cache") ];
     data := None |}.

(** The order of the end-to-end example: one unit of [btcusd] at 9000.00,
    signed at nonce 1000000 with the secret [1234abcd]. *)
Definition golden_env : Env :=
  sample_env 1000 1 (Some "mykey") (Some "1234abcd") ticker_obj.

Definition golden_params : dict :=
  new_order_params golden_env (PStr "btcusd") (PStr "1.0") (PStr "9000.00")
    (PStr "buy") PNone.

Definition golden_json : string :=
  text_of (PDict (request_params "order/new" golden_params 1000000)).

Definition golden_request : Request :=
  signed_request golden_env "order/new" golden_json "1234abcd".

(** The sample world again, with a decoder that knows the texts of
    [values]. *)
Definition env_decoding (values : list pyobj) (body : pyobj) : Env :=
  {| time_time := time_time golden_env;
     get_password := get_password golden_env;
     server := fun _ _ => Ok {| status_code := 200; text := text_of body |};
     json_loads := fun s =>
       match find (fun v => text_of v =? s) values with
       | Some v => Ok v
       | None => Raise JSONDecodeError
       end;
     repr := repr golden_env |}.

(** The objects [json.dumps] accepts: those that hold no byte string. *)
Fixpoint serializable (o : pyobj) : bool :=
  match o with
  | PBytes _ => false
  | PList l => forallb serializable l
  | PDict d => forallb (fun kv => serializable (snd kv)) d
  | _ => true
  end.

(** [c.get(k)] on a collection of orders; a list holds nothing under a
    key. *)
Definition orders_get (c : orders) (k : order_key) : option Order.t :=
  match c with
  | OrderedDict d => odict_get d k
  | PyList _ => None
  end.

Definition orders_len (c : orders) : nat :=
  match c with
  | OrderedDict d => List.length d
  | PyList l => List.length l
  end.

(** An entry is well filed for a symbol and a side when it sits under
    the id of its order and the order has that symbol and that side. *)
Definition filed (symbol : pyobj) (side : string)
    (kv : order_key * Order.t) : Prop :=
  key_eqb (fst kv) (Order.id (snd kv)) = true /\
  py_eq (Order.symbol (snd kv)) symbol = true /\
  Order.side (snd kv) = PStr side.

Fixpoint unique_keys (d : list (order_key * Order.t)) : Prop :=
  match d with
  | [] => True
  | (k, _) :: r => odict_get r k = None /\ unique_keys r
  end.

Definition well_filed (symbol : pyobj) (side : string) (c : orders) : Prop :=
  match c with
  | OrderedDict d => Forall (filed symbol side) d /\ unique_keys d
  | PyList l => l = []
  end.

(** The managers one gets from the constructor by [_update_order],
    [cancel_session] and [cancel_all], each having returned normally. *)
Inductive reachable (env : Env) (symbol : pyobj) : TradeManager.t -> Prop :=
| reach_init : reachable env symbol (TradeManager.init symbol)
| reach_update self order self' :
    reachable env symbol self ->
    TradeManager._update_order self order = Ok self' ->
    reachable env symbol self'
| reach_cancel_session self st self' st' :
    reachable env symbol self ->
    TradeManager.cancel_session env self st = (Ok self', st') ->
    reachable env symbol self'
| reach_cancel_all self st self' st' :
    reachable env symbol self ->
    TradeManager.cancel_all env self st = (Ok self', st') ->
    reachable env symbol self'.

(** * Properties *)

(** ** Dictionaries *)

Lemma dict_get_set_same (d : dict) (k : string) (v : pyobj) :
  dict_get (dict_set d k v) k = Some v.
Proof.
  induction d as [|[k' v'] r IH]; simpl.
  - now rewrite String.eqb_refl.
  - destruct (k' =? k) eqn:E; simpl; rewrite E; [reflexivity | exact IH].
Qed.

Lemma dict_get_set_other (d : dict) (k k' : string) (v : pyobj) :
  k <> k' -> dict_get (dict_set d k v) k' = dict_get d k'.
Proof.
  intros Hne. induction d as [|[k0 v0] r IH]; simpl.
  - destruct (k =? k') eqn:E; [|reflexivity].
    apply String.eqb_eq in E. contradiction.
  - destruct (k0 =? k) eqn:E; simpl.
    + apply String.eqb_eq in E. subst k0.
      destruct (k =? k') eqn:E'; [|reflexivity].
      apply String.eqb_eq in E'. contradiction.
    + now rewrite IH.
Qed.

Lemma dict_contains_set_other (d : dict) (k k' : string) (v : pyobj) :
  k <> k' -> dict_contains (dict_set d k v) k' = dict_contains d k'.
Proof.
  intros Hne. unfold dict_contains. now rewrite dict_get_set_other.
Qed.

Lemma request_params_request url_path parameters nonce :
  dict_get (request_params url_path parameters nonce) "request"
  = Some (PStr ("/" ++ API_VERSION ++ "/" ++ url_path)).
Proof.
  unfold request_params.
  rewrite dict_get_set_other by discriminate.
  apply dict_get_set_same.
Qed.

Lemma request_params_nonce url_path parameters nonce :
  dict_get (request_params url_path parameters nonce) "nonce"
  = Some (PInt nonce).
Proof. apply dict_get_set_same. Qed.

(** ** Hexadecimal output *)

Lemma hex_of_bytes_lowercase (b : bytes) : lowercase_hex (hex_of_bytes b).
Proof.
  unfold lowercase_hex.
  induction b as [|x r IH]; simpl; [constructor|].
  constructor; [|constructor; [|exact IH]];
    destruct x; vm_compute; tauto.
Qed.

(** ** The transport log *)

Lemma issued_app (st st' : State) (l : list Request) :
  sent st' = (sent st ++ l)%list -> issued st st' = l.
Proof.
  intros H. unfold issued. rewrite H, skipn_app, skipn_all, Nat.sub_diag.
  reflexivity.
Qed.

Lemma issued_none (st st' : State) :
  sent st' = sent st -> issued st st' = [].
Proof.
  intros H. apply issued_app. now rewrite app_nil_r.
Qed.

Lemma app_one_not_self {A} (l : list A) (x : A) : l <> (l ++ [x])%list.
Proof.
  intros H. apply (f_equal (@List.length A)) in H.
  rewrite length_app in H. simpl in H. lia.
Qed.

(** ** Running [private_req]

    The clock is read once.  The call stops at [json.dumps] when the
    parameters do not serialise and at [api_secret.encode] when the keyring
    has no secret, in both cases before the transport is reached;
    otherwise it hands one request to the transport and parses the
    answer. *)

Lemma get_timestamp_ms_run env st :
  get_timestamp_ms env st
  = (Ok (to_ms (time_time env (reads st))),
     {| reads := S (reads st); sent := sent st |}).
Proof. reflexivity. Qed.

Lemma private_req_run env url_path parameters st :
  private_req env url_path parameters st =
  let nonce := to_ms (time_time env (reads st)) in
  let st1 := {| reads := S (reads st); sent := sent st |} in
  match Json.dumps (PDict (request_params url_path parameters nonce)) with
  | Raise e => (Raise e, st1)
  | Ok param_json =>
      match get_password env KEYRING_NAMESPACE KEYRING_API_SECRET with
      | None => (Raise AttributeError, st1)
      | Some secret =>
          let req := signed_request env url_path param_json secret in
          (rbind (server env (sent st) req) (parse_response env),
           {| reads := S (reads st); sent := (sent st ++ [req])%list |})
      end
  end.
Proof.
  unfold private_req, bind, lift, requests_request, request_params,
    signed_request.
  rewrite get_timestamp_ms_run. cbv zeta.
  destruct (Json.dumps _) as [param_json|e]; [|reflexivity].
  destruct (get_password env KEYRING_NAMESPACE KEYRING_API_SECRET)
    as [secret|]; [|reflexivity].
  cbv beta iota. cbn [reads sent].
  destruct (server env (sent st) _) as [response|e]; reflexivity.
Qed.

(** ** Test vectors for the library functions *)

Example sha384_abc :
  hex_of_bytes (SHA384.digest (bytes_of_string "abc"))
  = "cb00753f45a35e8bb5a03d699ac65007272c32ab0eded1631a8b605a43ff5bed8086072ba1e7cc2358baeca134c825a7".
Proof. vm_compute. reflexivity. Qed.

Example sha384_two_blocks :
  hex_of_bytes (SHA384.digest (bytes_of_string
    "abcdefghbcdefghicdefghijdefghijkefghijklfghijklmghijklmnhijklmnoijklmnopjklmnopqklmnopqrlmnopqrsmnopqrstnopqrstu"))
  = "09330c33f71147e83d192fc782cd1b4753111b173b3b05d22fa08086e3b0f712fcc7c71a557e2db966c3e9fa91746039".
Proof. vm_compute. reflexivity. Qed.

Example hmac_sha384_short_key :
  HMAC.hexdigest (bytes_of_string "Jefe")
    (bytes_of_string "what do ya want for nothing?")
  = "af45d2e376484031617f78d2b58a6b1b9c7ef464f5a01b47e42ec3736322445e8e2240ca5e69e2c78b3239ecfab21649".
Proof. vm_compute. reflexivity. Qed.

Example hmac_sha384_long_key :
  HMAC.hexdigest (repeat (byte_of_Z 170) 131)
    (bytes_of_string "Test Using Larger Than Block-Size Key - Hash Key First")
  = "4ece084485813e9088d2c63a041bc5b44f9ef1012a2b588f3cd11f05033ac4c60c2ef6ab4030fe8296248df163f44952".
Proof. vm_compute. reflexivity. Qed.

Example b64encode_padding :
  map (fun s => string_of_bytes (Base64.b64encode (bytes_of_string s)))
      ["foob"; "fooba"; "foobar"]
  = ["Zm9vYg=="; "Zm9vYmE="; "Zm9vYmFy"].
Proof. vm_compute. reflexivity. Qed.

Example dumps_escapes :
  Json.dumps (PList [PNone; PBool true; PInt (-3);
                     PStr (String (ascii_of_N 195) (String (ascii_of_N 169)
                             (String (ascii_of_N 10) "\/")));
                     PDict []])
  = Ok ("[null, true, -3, " ++ Json.dquote ++ "\u00e9\n\\/" ++ Json.dquote
          ++ ", {}]").
Proof. vm_compute. reflexivity. Qed.

Example dumps_not_serializable :
  Json.dumps (PDict [("payload", PBytes [])]) = Raise TypeError.
Proof. reflexivity. Qed.

(** The end-to-end example: payload and signature of the sample order. *)
Example golden_order_signature :
  exists hs,
    sent (snd (new_order golden_env (PStr "btcusd") (PStr "1.0")
                 (PStr "9000.00") (PStr "buy") PNone fresh))
    = [ {| method := "POST";
           url := "https://api.sandbox.gemini.com/v1/order/new";
           params := None; headers := Some hs; data := None |} ] /\
    dict_get hs "X-GEMINI-PAYLOAD"
    = Some (PBytes (bytes_of_string
        "eyJzeW1ib2wiOiAiYnRjdXNkIiwgImFtb3VudCI6ICIxLjAiLCAicHJpY2UiOiAiOTAwMC4wMCIsICJzaWRlIjogImJ1eSIsICJ0eXBlIjogImV4Y2hhbmdlIGxpbWl0IiwgIm9wdGlvbnMiOiBbXSwgInJlcXVlc3QiOiAiL3YxL29yZGVyL25ldyIsICJub25jZSI6IDEwMDAwMDB9")) /\
    dict_get hs "X-GEMINI-SIGNATURE"
    = Some (PStr
        "685435b2ec6dfc736bbc8dc881fe471f016911e9732ffa8d54186870b66953da4d713b371352e98e19df27aa2fa3ff76").
Proof. eexists. vm_compute. repeat split. Qed.

(** ** The signing pipeline *)

Ltac run_private_req :=
  rewrite private_req_run; cbv zeta;
  repeat match goal with
    | H : get_timestamp_ms _ _ = (Ok _, _) |- _ =>
        rewrite get_timestamp_ms_run in H; injection H as <- <-
    | H : Json.dumps _ = _ |- _ =>
        unfold request_params; rewrite H
    | H : get_password _ _ KEYRING_API_SECRET = _ |- _ => rewrite H
    end;
  cbn [fst snd sent reads].

(** C1: [private_req] builds the versioned path ["/" + API_VERSION + "/" +
    url_path], sets the entries [request] (that path) and [nonce] (the
    value [get_timestamp_ms] returns) in the parameter mapping, serialises
    the mapping with [json.dumps], base64-encodes the UTF-8 bytes of the
    JSON text into the payload, and signs the payload with HMAC-SHA384
    keyed by the UTF-8 bytes of the secret, printed in lowercase
    hexadecimal.  Payload and signature are the ones carried by the
    request handed to the transport. *)
Theorem private_req_signs
    env url_path parameters st nonce st1 param_json secret :
  get_timestamp_ms env st = (Ok nonce, st1) ->
  Json.dumps
    (PDict (dict_set
              (dict_set parameters "request"
                 (PStr ("/" ++ API_VERSION ++ "/" ++ url_path)))
              "nonce" (PInt nonce))) = Ok param_json ->
  get_password env KEYRING_NAMESPACE KEYRING_API_SECRET = Some secret ->
  exists req hs payload signature,
    sent (snd (private_req env url_path parameters st))
      = (sent st ++ [req])%list /\
    headers req = Some hs /\
    payload = Base64.b64encode (encode_utf8 param_json) /\
    signature = hex_of_bytes (HMAC.digest (encode_utf8 secret) payload) /\
    lowercase_hex signature /\
    dict_get hs "X-GEMINI-PAYLOAD" = Some (PBytes payload) /\
    dict_get hs "X-GEMINI-SIGNATURE" = Some (PStr signature).
Proof.
  intros Hclock Hjson Hsecret.
  exists (signed_request env url_path param_json secret).
  eexists. exists (Base64.b64encode (encode_utf8 param_json)). eexists.
  split; [run_private_req; reflexivity|].
  split; [reflexivity|].
  split; [reflexivity|].
  split; [reflexivity|].
  split; [apply hex_of_bytes_lowercase|].
  split; reflexivity.
Qed.

Lemma private_req_signs_witness :
  exists req hs payload signature,
    sent (snd (private_req golden_env "order/new" golden_params fresh))
      = (sent fresh ++ [req])%list /\
    headers req = Some hs /\
    payload = Base64.b64encode (encode_utf8 golden_json) /\
    signature = hex_of_bytes (HMAC.digest (encode_utf8 "1234abcd") payload) /\
    lowercase_hex signature /\
    dict_get hs "X-GEMINI-PAYLOAD" = Some (PBytes payload) /\
    dict_get hs "X-GEMINI-SIGNATURE" = Some (PStr signature).
Proof.
  apply (private_req_signs golden_env "order/new" golden_params fresh
           1000000 {| reads := 1; sent := [] |} golden_json "1234abcd");
    reflexivity.
Defined.

(** C2 (as the specification words it): the header names [X-API-KEY],
    [X-API-PAYLOAD] and [X-API-SIGNATURE] are not the ones of the request
    that the sample order produces. *)
Lemma spec_header_names_refuted :
  exists req hs,
    sent (snd (private_req golden_env "order/new" golden_params fresh))
      = [req] /\
    headers req = Some hs /\
    map fst hs <> spec_header_names /\
    dict_get hs "X-API-KEY" = None /\
    dict_get hs "X-API-PAYLOAD" = None /\
    dict_get hs "X-API-SIGNATURE" = None.
Proof.
  exists golden_request. eexists.
  split; [reflexivity|].
  split; [reflexivity|].
  split; [|repeat split].
  cbn [map fst]. unfold spec_header_names. intros H.
  injection H as _ _ H _. discriminate H.
Qed.

(** C2 (amended): the header mapping of every request [private_req] hands
    to the transport has exactly the entries [Content-Type: text/plain],
    [Content-Length: 0], [X-GEMINI-APIKEY] (what the keyring holds as api
    key), [X-GEMINI-PAYLOAD] (the base64 payload), [X-GEMINI-SIGNATURE]
    (the hexadecimal signature) and [Cache-Control: no-cache]. *)
Theorem private_req_headers env url_path parameters st req :
  sent (snd (private_req env url_path parameters st))
    = (sent st ++ [req])%list ->
  exists param_json secret,
    Json.dumps
      (PDict (request_params url_path parameters
                (to_ms (time_time env (reads st)))))
      = Ok param_json /\
    get_password env KEYRING_NAMESPACE KEYRING_API_SECRET = Some secret /\
    headers req =
      Some [ ("Content-Type", PStr "text/plain");
             ("Content-Length", PStr "0");
             ("X-GEMINI-APIKEY",
               match get_password env KEYRING_NAMESPACE KEYRING_API_KEY with
               | Some k => PStr k
               | None => PNone
               end);
             ("X-GEMINI-PAYLOAD",
               PBytes (Base64.b64encode (encode_utf8 param_json)));
             ("X-GEMINI-SIGNATURE",
               PStr (HMAC.hexdigest (encode_utf8 secret)
                       (Base64.b64encode (encode_utf8 param_json))));
             ("Cache-Control", PStr "no-cache") ].
Proof.
  rewrite private_req_run. cbv zeta.
  destruct (Json.dumps _) as [param_json|e].
  - destruct (get_password env KEYRING_NAMESPACE KEYRING_API_SECRET)
      as [secret|].
    + cbn [snd sent]. intros H. apply app_inv_head in H.
      injection H as <-. exists param_json, secret.
      repeat split.
    + cbn [snd sent]. intros H. now apply app_one_not_self in H.
  - cbn [snd sent]. intros H. now apply app_one_not_self in H.
Qed.

Lemma private_req_headers_witness :
  exists param_json secret,
    Json.dumps (PDict (request_params "order/new" golden_params
                         (to_ms (time_time golden_env (reads fresh)))))
      = Ok param_json /\
    get_password golden_env KEYRING_NAMESPACE KEYRING_API_SECRET
      = Some secret /\
    headers golden_request =
      Some [ ("Content-Type", PStr "text/plain");
             ("Content-Length", PStr "0");
             ("X-GEMINI-APIKEY",
               match get_password golden_env KEYRING_NAMESPACE
                       KEYRING_API_KEY with
               | Some k => PStr k
               | None => PNone
               end);
             ("X-GEMINI-PAYLOAD",
               PBytes (Base64.b64encode (encode_utf8 param_json)));
             ("X-GEMINI-SIGNATURE",
               PStr (HMAC.hexdigest (encode_utf8 secret)
                       (Base64.b64encode (encode_utf8 param_json))));
             ("Cache-Control", PStr "no-cache") ].
Proof.
  apply (private_req_headers golden_env "order/new" golden_params fresh
           golden_request).
  reflexivity.
Defined.

(** C4 (as the specification words it): with the api key missing from the
    keyring and the secret present, the call does not fail before the
    network: the request is handed to the transport, with [None] as the
    value of [X-GEMINI-APIKEY], and the call returns the server's answer. *)
Lemma missing_api_key_reaches_network :
  let env := sample_env 1000 1 None (Some "1234abcd") (PList []) in
  get_password env KEYRING_NAMESPACE KEYRING_API_KEY = None /\
  exists req hs,
    private_req env "balances" [] fresh
      = (Ok (PList []), {| reads := 1; sent := [req] |}) /\
    headers req = Some hs /\
    dict_get hs "X-GEMINI-APIKEY" = Some PNone.
Proof.
  intros env. split; [reflexivity|].
  exists (signed_request env "balances"
            (text_of (PDict (request_params "balances" [] 1000000)))
            "1234abcd").
  eexists. split; [|split; reflexivity].
  rewrite private_req_run. reflexivity.
Qed.

(** C4 (amended): when the keyring returns nothing for the api secret, the
    call fails and hands nothing to the transport.  The error is the
    [AttributeError] of [api_secret.encode], unless [json.dumps] has
    already failed on the parameters. *)
Theorem missing_secret_fails_before_request env url_path parameters st :
  get_password env KEYRING_NAMESPACE KEYRING_API_SECRET = None ->
  exists e,
    fst (private_req env url_path parameters st) = Raise e /\
    sent (snd (private_req env url_path parameters st)) = sent st /\
    issued st (snd (private_req env url_path parameters st)) = [] /\
    (e = AttributeError \/
     Json.dumps
       (PDict (request_params url_path parameters
                 (to_ms (time_time env (reads st))))) = Raise e).
Proof.
  intros Hsecret. rewrite private_req_run. cbv zeta. rewrite Hsecret.
  destruct (Json.dumps _) as [param_json|e].
  - exists AttributeError. cbn [fst snd sent].
    split; [reflexivity|]. split; [reflexivity|].
    split; [now apply issued_none | now left].
  - exists e. cbn [fst snd sent].
    split; [reflexivity|]. split; [reflexivity|].
    split; [now apply issued_none | now right].
Qed.

Lemma missing_secret_fails_before_request_witness :
  let env := sample_env 1000 1 (Some "mykey") None (PList []) in
  exists e,
    fst (private_req env "balances" [] fresh) = Raise e /\
    sent (snd (private_req env "balances" [] fresh)) = sent fresh /\
    issued fresh (snd (private_req env "balances" [] fresh)) = [] /\
    (e = AttributeError \/
     Json.dumps
       (PDict (request_params "balances" []
                 (to_ms (time_time env (reads fresh))))) = Raise e).
Proof.
  intros env.
  apply (missing_secret_fails_before_request env "balances" [] fresh).
  reflexivity.
Defined.

(** C5: every request [private_req] hands to the transport is a POST to
    [BASE_URL] followed by the versioned path, with the signed headers
    and no body (the payload is a header); the call hands at most one
    request, and exactly one when the parameters serialise and the keyring
    holds a secret. *)
Theorem private_req_posts_empty_body env url_path parameters st :
  let st' := snd (private_req env url_path parameters st) in
  (exists reqs, sent st' = (sent st ++ reqs)%list /\ issued st st' = reqs) /\
  (List.length (issued st st') <= 1)%nat /\
  Forall (fun req =>
            method req = "POST" /\
            url req = BASE_URL ++ ("/" ++ API_VERSION ++ "/" ++ url_path) /\
            data req = None /\
            params req = None /\
            exists hs b64,
              headers req = Some hs /\
              dict_get hs "X-GEMINI-PAYLOAD" = Some (PBytes b64) /\
              dict_get hs "X-GEMINI-SIGNATURE" <> None)
         (issued st st') /\
  (forall param_json secret,
      Json.dumps
        (PDict (request_params url_path parameters
                  (to_ms (time_time env (reads st)))))
        = Ok param_json ->
      get_password env KEYRING_NAMESPACE KEYRING_API_SECRET = Some secret ->
      issued st st' = [signed_request env url_path param_json secret]).
Proof.
  cbv zeta. rewrite private_req_run. cbv zeta.
  destruct (Json.dumps _) as [param_json|e].
  - destruct (get_password env KEYRING_NAMESPACE KEYRING_API_SECRET)
      as [secret|]; cbn [snd].
    + rewrite (issued_app st _ [signed_request env url_path param_json secret])
        by reflexivity.
      split; [eexists; split; reflexivity|].
      split; [simpl; lia|].
      split.
      * constructor; [|constructor].
        repeat split.
        eexists. eexists. split; [reflexivity|]. split; [reflexivity|].
        discriminate.
      * intros pj s Hpj Hs. injection Hpj as <-. injection Hs as <-.
        reflexivity.
    + rewrite issued_none by reflexivity.
      split; [exists []; split; [now rewrite app_nil_r | reflexivity]|].
      split; [simpl; lia|].
      split; [constructor|]. intros pj s _ Hs. discriminate Hs.
  - cbn [snd]. rewrite issued_none by reflexivity.
    split; [exists []; split; [now rewrite app_nil_r | reflexivity]|].
    split; [simpl; lia|].
    split; [constructor|]. intros pj s Hpj _. discriminate Hpj.
Qed.

Lemma private_req_posts_empty_body_witness :
  issued fresh (snd (private_req golden_env "order/new" golden_params fresh))
  = [signed_request golden_env "order/new" golden_json "1234abcd"].
Proof.
  apply (proj2 (proj2 (proj2
           (private_req_posts_empty_body golden_env "order/new"
              golden_params fresh)))); reflexivity.
Defined.

(** C8: signing is a function of the endpoint path, the parameters, the
    credentials and the nonce.  Two runs of [private_req], in any two
    worlds and states that give the same nonce and hold the same api key
    and secret, hand the transport requests with identical header
    mappings, hence the same payload and the same signature. *)
Theorem signing_deterministic env1 env2 st1 st2 url_path parameters :
  fst (get_timestamp_ms env1 st1) = fst (get_timestamp_ms env2 st2) ->
  get_password env1 KEYRING_NAMESPACE KEYRING_API_KEY
    = get_password env2 KEYRING_NAMESPACE KEYRING_API_KEY ->
  get_password env1 KEYRING_NAMESPACE KEYRING_API_SECRET
    = get_password env2 KEYRING_NAMESPACE KEYRING_API_SECRET ->
  map headers
      (issued st1 (snd (private_req env1 url_path parameters st1)))
  = map headers
      (issued st2 (snd (private_req env2 url_path parameters st2))).
Proof.
  intros Hnonce Hkey Hsecret.
  rewrite !get_timestamp_ms_run in Hnonce. cbn [fst] in Hnonce.
  injection Hnonce as Hnonce.
  rewrite !private_req_run. cbv zeta. rewrite Hnonce, Hsecret.
  destruct (Json.dumps _) as [param_json|e].
  - destruct (get_password env2 KEYRING_NAMESPACE KEYRING_API_SECRET)
      as [secret|]; cbn [snd].
    + rewrite (issued_app st1 _ [signed_request env1 url_path param_json secret])
        by reflexivity.
      rewrite (issued_app st2 _ [signed_request env2 url_path param_json secret])
        by reflexivity.
      unfold signed_request. cbn [map headers]. now rewrite Hkey.
    + now rewrite !issued_none by reflexivity.
  - cbn [snd]. now rewrite !issued_none by reflexivity.
Qed.

Lemma signing_deterministic_witness :
  let env2 := sample_env 999 1 (Some "mykey") (Some "1234abcd") error_obj in
  let st2 := {| reads := 1; sent := [golden_request] |} in
  map headers
      (issued fresh (snd (private_req golden_env "order/new" golden_params
                            fresh)))
  = map headers
      (issued st2 (snd (private_req env2 "order/new" golden_params st2))).
Proof.
  intros env2 st2.
  apply (signing_deterministic golden_env env2 fresh st2 "order/new"
           golden_params); reflexivity.
Defined.

(** ** The response parser *)

Lemma py_eq_str (v : pyobj) (s : string) :
  py_eq v (PStr s) = true <-> v = PStr s.
Proof.
  destruct v as [| b | n | t | b | l | d]; simpl;
    try (split; discriminate).
  split; intros H.
  - apply String.eqb_eq in H. now subst.
  - injection H as ->. apply String.eqb_refl.
Qed.

Lemma error_envelope_inv (data : pyobj) :
  error_envelope data = true ->
  exists d, data = PDict d /\ dict_get d "result" = Some (PStr "error").
Proof.
  destruct data as [| | | | | |d]; simpl; try discriminate.
  destruct (dict_get d "result") as [v|] eqn:E; [|discriminate].
  intros H. apply py_eq_str in H. subst v. now exists d.
Qed.

(** C3 (as the specification words it): a body that decodes to a number is
    not an error envelope, yet it is not returned: the membership test
    ['result' in data] raises [TypeError]. *)
Lemma parse_response_scalar_refuted :
  let response := {| status_code := 200; text := "5" |} in
  json_loads golden_env (text response) = Ok (PInt 5) /\
  error_envelope (PInt 5) = false /\
  parse_response golden_env response = Raise TypeError /\
  parse_response golden_env response <> Ok (PInt 5).
Proof.
  intros response. repeat split. discriminate.
Qed.

(** C3 (amended): let the body decode to [data].  If [data] is an object
    whose [result] entry is the text [error], and it has [reason] and
    [message] entries, the parser raises [RuntimeError] with the message
    [reason: message] (the two entries as [format] prints them, for texts
    the texts themselves).  If [data] is an object that is not such an
    envelope, a list with no entry equal to the text [result], or a text
    in which [result] does not occur, the parser returns [data] as it is. *)
Theorem parse_response_envelope env response data :
  json_loads env (text response) = Ok data ->
  (error_envelope data = true ->
   forall reason message,
     getitem data "reason" = Ok reason ->
     getitem data "message" = Ok message ->
     parse_response env response
     = Raise (RuntimeError (py_str env reason ++ ": " ++ py_str env message))) /\
  (error_envelope data = false -> plain_payload data = true ->
   parse_response env response = Ok data).
Proof.
  intros Hloads. unfold parse_response. rewrite Hloads. cbn [rbind].
  split.
  - intros Henv reason message Hreason Hmessage.
    apply error_envelope_inv in Henv. destruct Henv as (d & -> & Hres).
    cbn [contains rbind]. unfold dict_contains. rewrite Hres.
    cbn [getitem rbind]. rewrite Hres. cbn [rbind].
    rewrite (proj2 (py_eq_str _ _) eq_refl).
    cbn [getitem] in Hreason, Hmessage |- *.
    destruct (dict_get d "reason"); [|discriminate].
    destruct (dict_get d "message"); [|discriminate].
    injection Hreason as ->. injection Hmessage as ->. reflexivity.
  - intros Henv Hplain.
    destruct data as [| | | s | | l | d]; try discriminate Hplain.
    + cbn [contains rbind]. simpl in Hplain.
      apply negb_true_iff in Hplain. now rewrite Hplain.
    + cbn [contains rbind]. simpl in Hplain.
      apply negb_true_iff in Hplain. now rewrite Hplain.
    + cbn [contains rbind]. unfold dict_contains.
      simpl in Henv. cbn [getitem].
      destruct (dict_get d "result") as [v|]; [|reflexivity].
      cbn [rbind]. now rewrite Henv.
Qed.

Lemma parse_response_envelope_witness :
  parse_response golden_env {| status_code := 200; text := text_of error_obj |}
  = Raise (RuntimeError "InvalidSignature: bad sig") /\
  parse_response golden_env {| status_code := 200; text := text_of ticker_obj |}
  = Ok ticker_obj.
Proof.
  split.
  - apply (proj1 (parse_response_envelope golden_env
                    {| status_code := 200; text := text_of error_obj |}
                    error_obj eq_refl)
             eq_refl (PStr "InvalidSignature") (PStr "bad sig"));
      reflexivity.
  - apply (proj2 (parse_response_envelope golden_env
                    {| status_code := 200; text := text_of ticker_obj |}
                    ticker_obj eq_refl));
      reflexivity.
Defined.

(** ** The nonce *)

(** Rounding to the nearest float keeps the order. *)

Section FloatRounding.

Local Open Scope Q_scope.

Lemma rne_comp (x y : Q) : x == y -> Float64.rne x = Float64.rne y.
Proof.
  intros H. unfold Float64.rne. cbv zeta.
  assert (Hf : Qfloor x = Qfloor y) by now rewrite H.
  rewrite Hf.
  assert (Hc : Qcompare (x - inject_Z (Qfloor y)) (1 # 2)
               = Qcompare (y - inject_Z (Qfloor y)) (1 # 2)) by now rewrite H.
  now rewrite Hc.
Qed.

Lemma rne_inject (n : Z) : Float64.rne (inject_Z n) = n.
Proof.
  unfold Float64.rne. cbv zeta. rewrite Qfloor_Z.
  assert (H : inject_Z n - inject_Z n < 1 # 2).
  { setoid_replace (inject_Z n - inject_Z n) with 0 by ring. reflexivity. }
  apply Qlt_alt in H. unfold Qcompare in *. now rewrite H.
Qed.

Lemma rne_floor (x : Q) :
  (Qfloor x <= Float64.rne x <= Qfloor x + 1)%Z.
Proof.
  unfold Float64.rne. cbv zeta.
  destruct (Qcompare _ _); [destruct (Z.even _)| |]; lia.
Qed.

Lemma rne_le (x y : Q) : x <= y -> (Float64.rne x <= Float64.rne y)%Z.
Proof.
  intros Hxy. pose proof (Qfloor_resp_le x y Hxy) as Hf.
  destruct (Z.eq_dec (Qfloor x) (Qfloor y)) as [E|E].
  - unfold Float64.rne. cbv zeta. rewrite E.
    assert (Hr : x - inject_Z (Qfloor y) <= y - inject_Z (Qfloor y)).
    { apply Qplus_le_l. exact Hxy. }
    destruct (Qcompare (x - inject_Z (Qfloor y)) (1 # 2)) eqn:Cx;
      destruct (Qcompare (y - inject_Z (Qfloor y)) (1 # 2)) eqn:Cy;
      try (destruct (Z.even (Qfloor y)); lia); try lia; exfalso.
    + apply Qeq_alt in Cx. apply Qlt_alt in Cy. rewrite Cx in Hr.
      apply (Qlt_irrefl (1 # 2)). now apply Qle_lt_trans with (y - inject_Z (Qfloor y)).
    + apply Qgt_alt in Cx. apply Qeq_alt in Cy. rewrite Cy in Hr.
      apply (Qlt_irrefl (1 # 2)). now apply Qlt_le_trans with (x - inject_Z (Qfloor y)).
    + apply Qgt_alt in Cx. apply Qlt_alt in Cy.
      apply (Qlt_irrefl (1 # 2)).
      apply Qlt_le_trans with (x - inject_Z (Qfloor y)); [exact Cx|].
      apply Qle_trans with (y - inject_Z (Qfloor y)); [exact Hr|].
      now apply Qlt_le_weak.
  - pose proof (rne_floor x). pose proof (rne_floor y). lia.
Qed.

Lemma pow2_pos (k : Z) : 0 < 2 ^ k.
Proof. now apply Qpower_0_lt. Qed.

Lemma pow2_le (a b : Z) : (a <= b)%Z -> 2 ^ a <= 2 ^ b.
Proof. intros H. apply Qpower_le_compat_l; [exact H | discriminate]. Qed.

Lemma pow2_add (a b : Z) : 2 ^ (a + b) == 2 ^ a * 2 ^ b.
Proof. apply Qpower_plus. discriminate. Qed.

Lemma pow2_inject (n : Z) : (0 <= n)%Z -> 2 ^ n == inject_Z (2 ^ n).
Proof. intros H. symmetry. now apply (Zpower_Qpower 2 n). Qed.

Lemma ilog2_spec (x : Q) :
  0 < x -> 2 ^ Float64.ilog2 x <= x /\ x < 2 ^ (Float64.ilog2 x + 1).
Proof.
  intros Hx. destruct x as [n d].
  assert (Hn : (0 < n)%Z).
  { unfold Qlt in Hx. simpl in Hx. lia. }
  pose proof (Z.log2_spec n Hn) as [Hn1 Hn2].
  pose proof (Z.log2_spec (Zpos d) (Pos2Z.is_pos d)) as [Hd1 Hd2].
  pose proof (Z.log2_nonneg n) as Hln.
  pose proof (Z.log2_nonneg (Zpos d)) as Hld.
  assert (Hxd : (n # d) * inject_Z (Zpos d) == inject_Z n).
  { unfold Qeq, Qmult, inject_Z. simpl. lia. }
  set (e0 := (Z.log2 n - Z.log2 (Zpos d))%Z).
  assert (Hup : n # d < 2 ^ (e0 + 1)).
  { apply (Qmult_lt_r _ _ (2 ^ Z.log2 (Zpos d))); [apply pow2_pos|].
    rewrite <- pow2_add.
    replace (e0 + 1 + Z.log2 (Zpos d))%Z with (Z.succ (Z.log2 n))
      by (subst e0; lia).
    apply Qle_lt_trans with (inject_Z n).
    - rewrite <- Hxd. apply Qmult_le_l; [exact Hx|].
      rewrite pow2_inject by exact Hld. now rewrite <- Zle_Qle.
    - rewrite pow2_inject by lia. now rewrite <- Zlt_Qlt. }
  assert (Hlow : 2 ^ (e0 - 1) < n # d).
  { apply (Qmult_lt_r _ _ (2 ^ Z.succ (Z.log2 (Zpos d)))); [apply pow2_pos|].
    rewrite <- pow2_add.
    replace (e0 - 1 + Z.succ (Z.log2 (Zpos d)))%Z with (Z.log2 n)
      by (subst e0; lia).
    apply Qle_lt_trans with (inject_Z n).
    - rewrite pow2_inject by exact Hln. now rewrite <- Zle_Qle.
    - rewrite <- Hxd. apply Qmult_lt_l; [exact Hx|].
      rewrite pow2_inject by lia. now rewrite <- Zlt_Qlt. }
  unfold Float64.ilog2. cbn [Qnum Qden]. fold e0.
  destruct (Qle_bool (2 ^ e0) (n # d)) eqn:E.
  - apply Qle_bool_iff in E. now split.
  - split; [now apply Qlt_le_weak|].
    replace (e0 - 1 + 1)%Z with e0 by lia.
    apply Qnot_le_lt. intros H. apply Qle_bool_iff in H. congruence.
Qed.

Lemma ilog2_le (x y : Q) :
  0 < x -> x <= y -> (Float64.ilog2 x <= Float64.ilog2 y)%Z.
Proof.
  intros Hx Hxy.
  assert (Hy : 0 < y) by now apply Qlt_le_trans with x.
  destruct (ilog2_spec x Hx) as [Hx1 _].
  destruct (ilog2_spec y Hy) as [_ Hy2].
  destruct (Z_lt_le_dec (Float64.ilog2 y) (Float64.ilog2 x)) as [H|H];
    [exfalso | exact H].
  apply (Qlt_irrefl y).
  apply Qlt_le_trans with (2 ^ (Float64.ilog2 y + 1)); [exact Hy2|].
  apply Qle_trans with (2 ^ Float64.ilog2 x); [apply pow2_le; lia|].
  now apply Qle_trans with x.
Qed.

Lemma quantum_le (x y : Q) :
  0 < Qabs x -> Qabs x <= Qabs y ->
  (Float64.quantum x <= Float64.quantum y)%Z.
Proof.
  intros Hx Hxy. unfold Float64.quantum.
  pose proof (ilog2_le _ _ Hx Hxy). lia.
Qed.

Lemma quantum_upper (x : Q) :
  0 < Qabs x -> Qabs x < 2 ^ (Float64.quantum x + 53).
Proof.
  intros Hx. destruct (ilog2_spec _ Hx) as [_ H].
  apply Qlt_le_trans with (2 ^ (Float64.ilog2 (Qabs x) + 1)); [exact H|].
  apply pow2_le. unfold Float64.quantum. lia.
Qed.

Lemma quantum_lower (x : Q) :
  0 < Qabs x -> (-1074 < Float64.quantum x)%Z ->
  2 ^ (Float64.quantum x + 52) <= Qabs x.
Proof.
  intros Hx Hk. destruct (ilog2_spec _ Hx) as [H _].
  apply Qle_trans with (2 ^ Float64.ilog2 (Qabs x)); [|exact H].
  apply pow2_le. unfold Float64.quantum in *. lia.
Qed.

(** Rounding does not cross a multiple of the quantum. *)
Lemma round_below (x : Q) (n : Z) :
  x <= inject_Z n * 2 ^ Float64.quantum x ->
  Float64.round x <= inject_Z n * 2 ^ Float64.quantum x.
Proof.
  intros H. unfold Float64.round.
  apply Qmult_le_compat_r; [|apply Qlt_le_weak, pow2_pos].
  rewrite <- Zle_Qle. rewrite <- (rne_inject n) at 1.
  apply rne_le. apply Qle_shift_div_r; [apply pow2_pos | exact H].
Qed.

Lemma round_above (x : Q) (n : Z) :
  inject_Z n * 2 ^ Float64.quantum x <= x ->
  inject_Z n * 2 ^ Float64.quantum x <= Float64.round x.
Proof.
  intros H. unfold Float64.round.
  apply Qmult_le_compat_r; [|apply Qlt_le_weak, pow2_pos].
  rewrite <- Zle_Qle. rewrite <- (rne_inject n) at 1.
  apply rne_le. apply Qle_shift_div_l; [apply pow2_pos | exact H].
Qed.

Lemma round_same_quantum (x y : Q) :
  Float64.quantum x = Float64.quantum y -> x <= y ->
  Float64.round x <= Float64.round y.
Proof.
  intros Hk Hxy. unfold Float64.round. rewrite Hk.
  apply Qmult_le_compat_r; [|apply Qlt_le_weak, pow2_pos].
  rewrite <- Zle_Qle. apply rne_le.
  apply Qmult_le_compat_r; [exact Hxy|].
  apply Qlt_le_weak, Qinv_lt_0_compat, pow2_pos.
Qed.

Lemma pow2_scaled (k j : Z) :
  (0 <= j)%Z -> inject_Z (2 ^ j) * 2 ^ k == 2 ^ (k + j).
Proof.
  intros Hj. rewrite pow2_add, <- pow2_inject by exact Hj. ring.
Qed.

Lemma round_le_pos (x y : Q) :
  0 < x -> x <= y -> Float64.round x <= Float64.round y.
Proof.
  intros Hx Hxy.
  assert (Hax : Qabs x == x) by (apply Qabs_pos; lra).
  assert (Hay : Qabs y == y) by (apply Qabs_pos; lra).
  assert (Hpx : 0 < Qabs x) by lra.
  assert (Hpy : 0 < Qabs y) by lra.
  assert (Hk : (Float64.quantum x <= Float64.quantum y)%Z).
  { apply quantum_le; [exact Hpx | lra]. }
  destruct (Z.eq_dec (Float64.quantum x) (Float64.quantum y)) as [E|E].
  - now apply round_same_quantum.
  - apply Qle_trans with (inject_Z (2 ^ 53) * 2 ^ Float64.quantum x).
    + apply round_below.
      pose proof (quantum_upper x Hpx) as H.
      pose proof (pow2_scaled (Float64.quantum x) 53 ltac:(lia)) as P.
      lra.
    + apply Qle_trans with (inject_Z (2 ^ 52) * 2 ^ Float64.quantum y).
      * rewrite !pow2_scaled by lia. apply pow2_le. lia.
      * apply round_above.
        assert (Hn : (-1074 < Float64.quantum y)%Z)
          by (unfold Float64.quantum in *; lia).
        pose proof (quantum_lower y Hpy Hn) as H.
        pose proof (pow2_scaled (Float64.quantum y) 52 ltac:(lia)) as P.
        lra.
Qed.

Lemma round_le_neg (x y : Q) :
  y < 0 -> x <= y -> Float64.round x <= Float64.round y.
Proof.
  intros Hy Hxy.
  assert (Hax : Qabs x == - x) by (apply Qabs_neg; lra).
  assert (Hay : Qabs y == - y) by (apply Qabs_neg; lra).
  assert (Hpx : 0 < Qabs x) by lra.
  assert (Hpy : 0 < Qabs y) by lra.
  assert (Hk : (Float64.quantum y <= Float64.quantum x)%Z).
  { apply quantum_le; [exact Hpy | lra]. }
  destruct (Z.eq_dec (Float64.quantum x) (Float64.quantum y)) as [E|E].
  - now apply round_same_quantum.
  - pose proof (pow2_scaled (Float64.quantum x) 52 ltac:(lia)) as Px.
    pose proof (pow2_scaled (Float64.quantum y) 53 ltac:(lia)) as Py.
    apply Qle_trans with (inject_Z (- 2 ^ 52) * 2 ^ Float64.quantum x).
    + apply round_below.
      assert (Hn : (-1074 < Float64.quantum x)%Z)
        by (unfold Float64.quantum in *; lia).
      pose proof (quantum_lower x Hpx Hn) as H.
      rewrite inject_Z_opp. lra.
    + apply Qle_trans with (inject_Z (- 2 ^ 53) * 2 ^ Float64.quantum y).
      * assert (H : 2 ^ (Float64.quantum y + 53)
                    <= 2 ^ (Float64.quantum x + 52))
          by (apply pow2_le; lia).
        rewrite !inject_Z_opp. lra.
      * apply round_above.
        pose proof (quantum_upper y Hpy) as H.
        rewrite inject_Z_opp. lra.
Qed.

Lemma round_nonneg (x : Q) : 0 <= x -> 0 <= Float64.round x.
Proof.
  intros H.
  apply Qle_trans with (inject_Z 0 * 2 ^ Float64.quantum x).
  - change (inject_Z 0) with 0. lra.
  - apply round_above. change (inject_Z 0) with 0. lra.
Qed.

Lemma round_nonpos (x : Q) : x <= 0 -> Float64.round x <= 0.
Proof.
  intros H.
  apply Qle_trans with (inject_Z 0 * 2 ^ Float64.quantum x).
  - apply round_below. change (inject_Z 0) with 0. lra.
  - change (inject_Z 0) with 0. lra.
Qed.

Lemma round_le (x y : Q) : x <= y -> Float64.round x <= Float64.round y.
Proof.
  intros Hxy.
  destruct (Qlt_le_dec 0 x) as [Hx|Hx]; [now apply round_le_pos|].
  destruct (Qlt_le_dec y 0) as [Hy|Hy]; [now apply round_le_neg|].
  apply Qle_trans with 0; [now apply round_nonpos | now apply round_nonneg].
Qed.

End FloatRounding.

Lemma int_of_Q_nonneg (x : Q) : (0 <= x)%Q -> int_of_Q x = Qfloor x.
Proof.
  destruct x as [n d]. unfold Qle, int_of_Q, Qfloor. simpl.
  intros H. apply Z.quot_div_nonneg; lia.
Qed.

Lemma int_of_Q_neg (x : Q) : (x <= 0)%Q -> int_of_Q x = Qceiling x.
Proof.
  destruct x as [n d]. unfold Qle, int_of_Q, Qceiling, Qfloor. simpl.
  intros H. rewrite <- (Z.opp_involutive n) at 1.
  rewrite Z.quot_opp_l by lia.
  f_equal. apply Z.quot_div_nonneg; lia.
Qed.

Lemma int_of_Q_le (x y : Q) : (x <= y)%Q -> (int_of_Q x <= int_of_Q y)%Z.
Proof.
  intros Hxy.
  destruct (Qlt_le_dec x 0) as [Hx|Hx]; destruct (Qlt_le_dec y 0) as [Hy|Hy].
  - rewrite !int_of_Q_neg by now apply Qlt_le_weak.
    now apply Qceiling_resp_le.
  - rewrite int_of_Q_neg by now apply Qlt_le_weak.
    rewrite int_of_Q_nonneg by assumption.
    transitivity 0%Z.
    + change 0%Z with (Qceiling 0). apply Qceiling_resp_le.
      now apply Qlt_le_weak.
    + change 0%Z with (Qfloor 0). now apply Qfloor_resp_le.
  - exfalso. apply (Qlt_irrefl 0).
    apply Qle_lt_trans with y; [|assumption].
    now apply Qle_trans with x.
  - rewrite !int_of_Q_nonneg by assumption.
    now apply Qfloor_resp_le.
Qed.

Lemma to_ms_le (t t' : Q) : (t <= t')%Q -> (to_ms t <= to_ms t')%Z.
Proof.
  intros H. unfold to_ms, Float64.mul.
  apply int_of_Q_le, round_le.
  apply Qmult_le_compat_r; [now apply round_le | discriminate].
Qed.

(** The product is rounded before it is cut: at this reading, a float,
    the exact product is a little below 1700000000043. *)
Example to_ms_rounded_product :
  to_ms (7130316800180355 # 4194304) = 1700000000043%Z /\
  int_of_Q ((7130316800180355 # 4194304) * 1000) = 1700000000042%Z /\
  to_ms (1700000000043 # 1000) = 1700000000043%Z /\
  to_ms (2448832297382707 # 562949953421312) = 4350%Z /\
  to_ms (- (3458764513820541 # 2305843009213693952)) = (-1)%Z.
Proof. vm_compute. repeat split. Qed.

Example round_to_even :
  Qred (Float64.round (inject_Z (2 ^ 53 + 1))) = inject_Z (2 ^ 53) /\
  Qred (Float64.round (inject_Z (2 ^ 53 + 3))) = inject_Z (2 ^ 53 + 4) /\
  Qred (Float64.round (1 # 3)) = (6004799503160661 # 18014398509481984)%Q.
Proof. vm_compute. repeat split. Qed.

(** C6 (as the specification words it): when the wall clock is set back
    between two readings, the second nonce is lower than the first. *)
Lemma nonce_can_decrease :
  let env := sample_env 2 (-1) None None (PList []) in
  exists st1 st2,
    get_timestamp_ms env fresh = (Ok 2000%Z, st1) /\
    get_timestamp_ms env st1 = (Ok 1000%Z, st2) /\
    (1000 < 2000)%Z.
Proof.
  intros env. eexists. eexists.
  split; [reflexivity|]. split; [reflexivity|]. reflexivity.
Qed.

(** C6 (amended): of two successive calls of [get_timestamp_ms], the second
    returns a value that is not lower than the first one's whenever the
    second reading of the wall clock is not earlier than the first. *)
Theorem nonce_not_lower env st n1 st1 n2 st2 :
  get_timestamp_ms env st = (Ok n1, st1) ->
  get_timestamp_ms env st1 = (Ok n2, st2) ->
  (time_time env (reads st) <= time_time env (S (reads st)))%Q ->
  (n1 <= n2)%Z.
Proof.
  rewrite !get_timestamp_ms_run.
  intros H1 H2 Hclock.
  injection H1 as <- <-. injection H2 as <- <-. cbn [reads].
  now apply to_ms_le.
Qed.

Lemma nonce_not_lower_witness : (1000000 <= 1001000)%Z.
Proof.
  apply (nonce_not_lower golden_env fresh 1000000
           {| reads := 1; sent := [] |} 1001000 {| reads := 2; sent := [] |});
    [reflexivity | reflexivity | discriminate].
Defined.

(** ** Orders *)

Lemma new_order_params_falsy env symbol amount price side client_id :
  truthy client_id = false ->
  new_order_params env symbol amount price side client_id
  = new_order_params env symbol amount price side PNone.
Proof.
  intros H. unfold new_order_params. now rewrite H.
Qed.

(** The request of a call of [private_req], given and recovered. *)
Lemma private_req_sends env url_path parameters st param_json secret :
  Json.dumps
    (PDict (request_params url_path parameters
              (to_ms (time_time env (reads st))))) = Ok param_json ->
  get_password env KEYRING_NAMESPACE KEYRING_API_SECRET = Some secret ->
  sent (snd (private_req env url_path parameters st))
  = (sent st ++ [signed_request env url_path param_json secret])%list.
Proof.
  intros Hjson Hsecret. rewrite private_req_run. cbv zeta.
  now rewrite Hjson, Hsecret.
Qed.

Lemma private_req_sent_inv env url_path parameters st req :
  sent (snd (private_req env url_path parameters st))
    = (sent st ++ [req])%list ->
  exists param_json secret,
    Json.dumps
      (PDict (request_params url_path parameters
                (to_ms (time_time env (reads st))))) = Ok param_json /\
    get_password env KEYRING_NAMESPACE KEYRING_API_SECRET = Some secret /\
    req = signed_request env url_path param_json secret.
Proof.
  rewrite private_req_run. cbv zeta.
  destruct (Json.dumps _) as [param_json|e];
    [destruct (get_password env KEYRING_NAMESPACE KEYRING_API_SECRET)
       as [secret|]|];
    cbn [snd sent]; intros H;
    try (now apply app_one_not_self in H).
  apply app_inv_head in H. injection H as <-.
  now exists param_json, secret.
Qed.

(** C9: the mapping [new_order] signs holds the key [client_order_id]
    exactly when [client_id] is truthy, and then with [client_id] as its
    value; with a falsy [client_id] (0, the empty text, ...) the call is
    the call without a client id.  The mapping is the one [new_order]
    sends: the request it hands to the transport carries the JSON text of
    that mapping as payload, signed, and it is handed over whenever the
    mapping serialises and the keyring has a secret. *)
Theorem new_order_client_order_id
    env symbol amount price side client_id st :
  let params := new_order_params env symbol amount price side client_id in
  let signed :=
    request_params "order/new" params (to_ms (time_time env (reads st))) in
  let run := new_order env symbol amount price side client_id st in
  dict_contains params "client_order_id" = truthy client_id /\
  (forall nonce,
     dict_contains (request_params "order/new" params nonce)
       "client_order_id" = truthy client_id) /\
  (truthy client_id = true ->
   forall nonce,
     dict_get (request_params "order/new" params nonce) "client_order_id"
     = Some client_id) /\
  (truthy client_id = false ->
   new_order env symbol amount price side client_id
   = new_order env symbol amount price side PNone) /\
  (forall req,
     sent (snd run) = (sent st ++ [req])%list ->
     exists param_json secret,
       Json.dumps (PDict signed) = Ok param_json /\
       get_password env KEYRING_NAMESPACE KEYRING_API_SECRET = Some secret /\
       req = signed_request env "order/new" param_json secret) /\
  (forall param_json secret,
     Json.dumps (PDict signed) = Ok param_json ->
     get_password env KEYRING_NAMESPACE KEYRING_API_SECRET = Some secret ->
     sent (snd run)
     = (sent st ++ [signed_request env "order/new" param_json secret])%list).
Proof.
  cbv zeta.
  assert (Hparams :
    dict_get (new_order_params env symbol amount price side client_id)
      "client_order_id"
    = if truthy client_id then Some client_id else None).
  { unfold new_order_params. destruct (truthy client_id); reflexivity. }
  assert (Hsigned : forall nonce,
    dict_get (request_params "order/new"
                (new_order_params env symbol amount price side client_id)
                nonce) "client_order_id"
    = dict_get (new_order_params env symbol amount price side client_id)
        "client_order_id").
  { intros nonce. unfold request_params.
    now rewrite !dict_get_set_other by discriminate. }
  unfold dict_contains.
  split; [rewrite Hparams; now destruct (truthy client_id)|].
  split; [intros nonce; rewrite Hsigned, Hparams;
          now destruct (truthy client_id)|].
  split; [intros Ht nonce; now rewrite Hsigned, Hparams, Ht|].
  split; [intros H; unfold new_order; now rewrite new_order_params_falsy|].
  unfold new_order. split.
  - intros req. apply private_req_sent_inv.
  - intros param_json secret. apply private_req_sends.
Qed.

Lemma new_order_client_order_id_witness :
  let with_id :=
    new_order_params golden_env (PStr "btcusd") (PStr "1.0") (PStr "9000.00")
      (PStr "buy") (PStr "my-order-7") in
  dict_get (request_params "order/new" with_id 1000000) "client_order_id"
  = Some (PStr "my-order-7") /\
  sent (snd (new_order golden_env (PStr "btcusd") (PStr "1.0")
               (PStr "9000.00") (PStr "buy") (PStr "my-order-7") fresh))
  = (sent fresh
       ++ [signed_request golden_env "order/new"
             (text_of (PDict (request_params "order/new" with_id 1000000)))
             "1234abcd"])%list /\
  new_order golden_env (PStr "btcusd") (PStr "1.0") (PStr "9000.00")
    (PStr "buy") (PInt 0)
  = new_order golden_env (PStr "btcusd") (PStr "1.0") (PStr "9000.00")
      (PStr "buy") PNone /\
  new_order golden_env (PStr "btcusd") (PStr "1.0") (PStr "9000.00")
    (PStr "buy") (PStr EmptyString)
  = new_order golden_env (PStr "btcusd") (PStr "1.0") (PStr "9000.00")
      (PStr "buy") PNone.
Proof.
  intros with_id. split; [|split; [|split]].
  - apply (proj1 (proj2 (proj2
             (new_order_client_order_id golden_env (PStr "btcusd")
                (PStr "1.0") (PStr "9000.00") (PStr "buy")
                (PStr "my-order-7") fresh))));
      reflexivity.
  - apply (proj2 (proj2 (proj2 (proj2 (proj2
             (new_order_client_order_id golden_env (PStr "btcusd")
                (PStr "1.0") (PStr "9000.00") (PStr "buy")
                (PStr "my-order-7") fresh))))));
      reflexivity.
  - apply (proj1 (proj2 (proj2 (proj2
             (new_order_client_order_id golden_env (PStr "btcusd")
                (PStr "1.0") (PStr "9000.00") (PStr "buy") (PInt 0)
                fresh)))));
      reflexivity.
  - apply (proj1 (proj2 (proj2 (proj2
             (new_order_client_order_id golden_env (PStr "btcusd")
                (PStr "1.0") (PStr "9000.00") (PStr "buy")
                (PStr EmptyString) fresh)))));
      reflexivity.
Defined.

(** ** The trade manager *)

Lemma cancel_run env (self : TradeManager.t) url_path st :
  (_ <- private_req env url_path [] ;;
   ret (TradeManager.set_sell_orders
          (TradeManager.set_buy_orders self (PyList [])) (PyList [])))%M st
  = match private_req env url_path [] st with
    | (Ok _, st') =>
        (Ok (TradeManager.set_sell_orders
               (TradeManager.set_buy_orders self (PyList [])) (PyList [])),
         st')
    | (Raise e, st') => (Raise e, st')
    end.
Proof.
  unfold bind, ret. destruct (private_req env url_path [] st) as [[v|e] st'];
    reflexivity.
Qed.

(** Every request of [cancel_all] goes to [/v1/orer/cancel/all], and none
    to [/v1/order/cancel/all]. *)
Lemma cancel_all_requests env self st :
  Forall (fun req =>
            url req = BASE_URL ++ "/v1/orer/cancel/all" /\
            url req <> BASE_URL ++ "/v1/order/cancel/all")
         (issued st (snd (TradeManager.cancel_all env self st))).
Proof.
  unfold TradeManager.cancel_all. rewrite cancel_run, private_req_run.
  cbv zeta.
  destruct (Json.dumps _) as [param_json|e];
    [destruct (get_password env KEYRING_NAMESPACE KEYRING_API_SECRET)
       as [secret|]|];
    try (cbn [snd]; rewrite issued_none by reflexivity; constructor).
  destruct (rbind (server env (sent st) _) (parse_response env)) as [v|e];
    cbn [snd];
    rewrite (issued_app st _
               [signed_request env "orer/cancel/all" param_json secret])
      by reflexivity;
    (constructor; [|constructor]);
    (split; [reflexivity | discriminate]).
Qed.

(** C7: [cancel_all] asks for [orer/cancel/all].  On the sample world the
    call succeeds with one request, whose URL and whose signed [request]
    entry name the path [/v1/orer/cancel/all], not [/v1/order/cancel/all];
    [cancel_session], next to it, asks for [/v1/order/cancel/session]. *)
Theorem cancel_all_misspelt_path :
  let self := TradeManager.init (PStr "btcusd") in
  exists req self',
    TradeManager.cancel_all golden_env self fresh
      = (Ok self', {| reads := 1; sent := [req] |}) /\
    url req = "https://api.sandbox.gemini.com/v1/orer/cancel/all" /\
    url req <> BASE_URL ++ "/" ++ API_VERSION ++ "/" ++ "order/cancel/all" /\
    req = signed_request golden_env "orer/cancel/all"
            (text_of (PDict [("request", PStr "/v1/orer/cancel/all");
                             ("nonce", PInt 1000000)]))
            "1234abcd" /\
    map url (sent (snd (TradeManager.cancel_session golden_env self fresh)))
      = ["https://api.sandbox.gemini.com/v1/order/cancel/session"].
Proof.
  intros self. eexists. eexists.
  split.
  - unfold TradeManager.cancel_all. rewrite cancel_run, private_req_run.
    reflexivity.
  - split; [reflexivity|]. split; [discriminate|]. split; [reflexivity|].
    unfold TradeManager.cancel_session. rewrite cancel_run, private_req_run.
    reflexivity.
Qed.

(** Order ids as dictionary keys: equality of decimals is an equivalence. *)

Lemma decimal_eqb_at (x y : decimal) (b : Z) :
  (b <= exponent x)%Z -> (b <= exponent y)%Z ->
  decimal_eqb x y = true <->
  (coefficient x * 10 ^ (exponent x - b)
   = coefficient y * 10 ^ (exponent y - b))%Z.
Proof.
  intros Hx Hy. unfold decimal_eqb.
  set (m := Z.min (exponent x) (exponent y)).
  assert (Hm : (b <= m)%Z) by (subst m; lia).
  assert (Hmx : (m <= exponent x)%Z) by (subst m; lia).
  assert (Hmy : (m <= exponent y)%Z) by (subst m; lia).
  replace (exponent x - b)%Z with ((exponent x - m) + (m - b))%Z by lia.
  replace (exponent y - b)%Z with ((exponent y - m) + (m - b))%Z by lia.
  rewrite !Z.pow_add_r by lia. rewrite !Z.mul_assoc.
  rewrite Z.eqb_eq.
  assert (Hpos : (0 < 10 ^ (m - b))%Z) by (apply Z.pow_pos_nonneg; lia).
  split; intros H.
  - now rewrite H.
  - apply Z.mul_cancel_r in H; [exact H | lia].
Qed.

Lemma decimal_eqb_refl (x : decimal) : decimal_eqb x x = true.
Proof. unfold decimal_eqb. apply Z.eqb_refl. Qed.

Lemma decimal_eqb_sym (x y : decimal) : decimal_eqb x y = decimal_eqb y x.
Proof.
  unfold decimal_eqb. rewrite (Z.min_comm (exponent y)). apply Z.eqb_sym.
Qed.

Lemma decimal_eqb_trans (x y z : decimal) :
  decimal_eqb x y = true -> decimal_eqb y z = true -> decimal_eqb x z = true.
Proof.
  set (b := Z.min (exponent x) (Z.min (exponent y) (exponent z))).
  intros Hxy Hyz.
  apply (decimal_eqb_at x y b) in Hxy; [|subst b; lia|subst b; lia].
  apply (decimal_eqb_at y z b) in Hyz; [|subst b; lia|subst b; lia].
  apply (decimal_eqb_at x z b); [subst b; lia|subst b; lia|].
  now rewrite Hxy.
Qed.

Lemma key_eqb_refl (k : order_key) : key_eqb k k = true.
Proof. destruct k; simpl; [apply decimal_eqb_refl | reflexivity]. Qed.

Lemma key_eqb_sym (k k' : order_key) : key_eqb k k' = key_eqb k' k.
Proof. destruct k, k'; simpl; try reflexivity. apply decimal_eqb_sym. Qed.

Lemma key_eqb_trans (k1 k2 k3 : order_key) :
  key_eqb k1 k2 = true -> key_eqb k2 k3 = true -> key_eqb k1 k3 = true.
Proof.
  destruct k1, k2, k3; simpl; try discriminate; try reflexivity.
  apply decimal_eqb_trans.
Qed.

Lemma odict_get_set_same d k v : odict_get (odict_set d k v) k = Some v.
Proof.
  induction d as [|[k' v'] r IH]; simpl.
  - now rewrite key_eqb_refl.
  - destruct (key_eqb k' k) eqn:E; simpl; rewrite E; [reflexivity | exact IH].
Qed.

Lemma odict_get_set_other d k k' v :
  key_eqb k k' = false -> odict_get (odict_set d k v) k' = odict_get d k'.
Proof.
  intros Hne. induction d as [|[k0 v0] r IH]; simpl.
  - now rewrite Hne.
  - destruct (key_eqb k0 k) eqn:E; simpl.
    + destruct (key_eqb k0 k') eqn:E'; [|reflexivity].
      rewrite key_eqb_sym in E.
      now rewrite (key_eqb_trans _ _ _ E E') in Hne.
    + now rewrite IH.
Qed.

(** C10: an order whose symbol differs from the manager's leaves the
    manager as it is, and raises nothing.  When the symbols are equal, an
    order of side [buy] is stored under its id in [buy_orders] and one of
    side [sell] in [sell_orders], the other collection being untouched
    (the store itself fails on the list that [cancel_session] and
    [cancel_all] leave); any other side raises an error.  Hence a changed
    manager or an error means equal symbols. *)
Theorem update_order_frame (self : TradeManager.t) (order : Order.t) :
  (py_eq (Order.symbol order) (TradeManager.symbol self) = false ->
   TradeManager._update_order self order = Ok self) /\
  (TradeManager._update_order self order <> Ok self ->
   py_eq (Order.symbol order) (TradeManager.symbol self) = true) /\
  (py_eq (Order.symbol order) (TradeManager.symbol self) = true ->
   (Order.side order = PStr "buy" ->
    (forall d, TradeManager.buy_orders self = OrderedDict d ->
       exists self',
         TradeManager._update_order self order = Ok self' /\
         TradeManager.buy_orders self'
           = OrderedDict (odict_set d (Order.id order) order) /\
         odict_get (odict_set d (Order.id order) order) (Order.id order)
           = Some order /\
         TradeManager.sell_orders self' = TradeManager.sell_orders self /\
         TradeManager.symbol self' = TradeManager.symbol self /\
         TradeManager.order_book self' = TradeManager.order_book self) /\
    (forall l, TradeManager.buy_orders self = PyList l ->
       TradeManager._update_order self order = Raise TypeError)) /\
   (Order.side order = PStr "sell" ->
    (forall d, TradeManager.sell_orders self = OrderedDict d ->
       exists self',
         TradeManager._update_order self order = Ok self' /\
         TradeManager.sell_orders self'
           = OrderedDict (odict_set d (Order.id order) order) /\
         odict_get (odict_set d (Order.id order) order) (Order.id order)
           = Some order /\
         TradeManager.buy_orders self' = TradeManager.buy_orders self /\
         TradeManager.symbol self' = TradeManager.symbol self /\
         TradeManager.order_book self' = TradeManager.order_book self) /\
    (forall l, TradeManager.sell_orders self = PyList l ->
       TradeManager._update_order self order = Raise TypeError)) /\
   (Order.side order <> PStr "buy" -> Order.side order <> PStr "sell" ->
    exists e, TradeManager._update_order self order = Raise e)).
Proof.
  unfold TradeManager._update_order.
  destruct (py_eq (Order.symbol order) (TradeManager.symbol self)) eqn:Hsym;
    cbn [negb].
  - split; [discriminate|]. split; [reflexivity|]. intros _.
    split; [|split].
    + intros ->. cbn [py_eq]. rewrite String.eqb_refl. split.
      * intros d ->. cbn [orders_setitem rbind]. eexists.
        split; [reflexivity|]. cbn.
        split; [reflexivity|]. split; [apply odict_get_set_same|].
        repeat split.
      * now intros l ->.
    + intros ->. cbn [py_eq].
      replace ("sell" =? "buy") with false by reflexivity.
      rewrite String.eqb_refl. split.
      * intros d ->. cbn [orders_setitem rbind]. eexists.
        split; [reflexivity|]. cbn.
        split; [reflexivity|]. split; [apply odict_get_set_same|].
        repeat split.
      * now intros l ->.
    + intros Hbuy Hsell.
      destruct (py_eq (Order.side order) (PStr "buy")) eqn:Eb.
      { apply py_eq_str in Eb. contradiction. }
      destruct (py_eq (Order.side order) (PStr "sell")) eqn:Es.
      { apply py_eq_str in Es. contradiction. }
      destruct (Order.side order); eexists; reflexivity.
  - split; [reflexivity|]. split; [congruence|]. discriminate.
Qed.

Lemma update_order_frame_witness :
  let self := TradeManager.init (PStr "btcusd") in
  TradeManager._update_order self (sample_order (PStr "ethusd") (PStr "buy") 7)
    = Ok self /\
  exists self',
    TradeManager._update_order self
      (sample_order (PStr "btcusd") (PStr "sell") 7) = Ok self' /\
    TradeManager.sell_orders self'
      = OrderedDict
          [(Some {| coefficient := 7; exponent := 0 |},
            sample_order (PStr "btcusd") (PStr "sell") 7)] /\
    TradeManager.buy_orders self' = OrderedDict [].
Proof.
  intros self. split.
  - apply (proj1 (update_order_frame self
                    (sample_order (PStr "ethusd") (PStr "buy") 7))).
    reflexivity.
  - destruct (proj1 (proj1 (proj2 (proj2 (proj2
                 (update_order_frame self
                    (sample_order (PStr "btcusd") (PStr "sell") 7)))
               eq_refl)) eq_refl) [] eq_refl)
      as (self' & Hrun & Hsell & _ & Hbuy & _).
    exists self'. split; [exact Hrun|]. split; [exact Hsell | exact Hbuy].
Defined.

(** * Further properties *)

(** ** Induction on Python values *)

Section PyobjInduction.

Variable P : pyobj -> Prop.
Hypothesis HNone : P PNone.
Hypothesis HBool : forall b, P (PBool b).
Hypothesis HInt : forall n, P (PInt n).
Hypothesis HStr : forall s, P (PStr s).
Hypothesis HBytes : forall b, P (PBytes b).
Hypothesis HList : forall l, Forall P l -> P (PList l).
Hypothesis HDict : forall d, Forall (fun kv => P (snd kv)) d -> P (PDict d).

Fixpoint pyobj_nested_ind (o : pyobj) : P o :=
  match o with
  | PNone => HNone
  | PBool b => HBool b
  | PInt n => HInt n
  | PStr s => HStr s
  | PBytes b => HBytes b
  | PList l =>
      HList l
        ((fix go (l : list pyobj) : Forall P l :=
            match l with
            | [] => Forall_nil P
            | x :: r => Forall_cons x (pyobj_nested_ind x) (go r)
            end) l)
  | PDict d =>
      HDict d
        ((fix go (d : list (string * pyobj))
            : Forall (fun kv => P (snd kv)) d :=
            match d with
            | [] => Forall_nil _
            | (k, v) :: r =>
                Forall_cons (P := fun kv => P (snd kv)) (k, v)
                  (pyobj_nested_ind v) (go r)
            end) d)
  end.

End PyobjInduction.

(** ** What [json.dumps] accepts *)

Lemma dumps_serializable (o : pyobj) :
  (serializable o = true -> exists s, Json.dumps o = Ok s) /\
  (serializable o = false -> Json.dumps o = Raise TypeError).
Proof.
  induction o as [| b | n | s | b | l IH | d IH] using pyobj_nested_ind;
    try (split; [intros _; simpl; solve [eauto] | discriminate]).
  - destruct b; split; try discriminate; intros _; simpl; eauto.
  - split; [discriminate | reflexivity].
  - cbn [Json.dumps serializable].
    match goal with
    | |- context [rbind (?f l) _] => set (go := f)
    end.
    assert (Hgo :
      (forallb serializable l = true -> exists items, go l = Ok items) /\
      (forallb serializable l = false -> go l = Raise TypeError)).
    { induction IH as [|x r [Hx1 Hx2] _ [Hr1 Hr2]]; cbn.
      - split; [eauto | discriminate].
      - destruct (serializable x); cbn [andb].
        + destruct (Hx1 eq_refl) as [sx ->]. cbn [rbind]. split.
          * intros H. destruct (Hr1 H) as [sr ->]. cbn [rbind]. eauto.
          * intros H. now rewrite (Hr2 H).
        + split; [discriminate|]. intros _. now rewrite (Hx2 eq_refl). }
    destruct Hgo as [Hgo1 Hgo2]. split; intros H.
    + destruct (Hgo1 H) as [items ->]. cbn [rbind]. eauto.
    + now rewrite (Hgo2 H).
  - cbn [Json.dumps serializable].
    match goal with
    | |- context [rbind (?f d) _] => set (go := f)
    end.
    assert (Hgo :
      (forallb (fun kv => serializable (snd kv)) d = true ->
       exists items, go d = Ok items) /\
      (forallb (fun kv => serializable (snd kv)) d = false ->
       go d = Raise TypeError)).
    { induction IH as [|[k v] r [Hx1 Hx2] _ [Hr1 Hr2]]; cbn.
      - split; [eauto | discriminate].
      - cbn [snd] in Hx1, Hx2. destruct (serializable v); cbn [andb].
        + destruct (Hx1 eq_refl) as [sx ->]. cbn [rbind]. split.
          * intros H. destruct (Hr1 H) as [sr ->]. cbn [rbind]. eauto.
          * intros H. now rewrite (Hr2 H).
        + split; [discriminate|]. intros _. now rewrite (Hx2 eq_refl). }
    destruct Hgo as [Hgo1 Hgo2]. split; intros H.
    + destruct (Hgo1 H) as [items ->]. cbn [rbind]. eauto.
    + now rewrite (Hgo2 H).
Qed.

Lemma forallb_dict_set (f : pyobj -> bool) (d : dict) k v :
  f v = true ->
  forallb (fun kv => f (snd kv)) d = true ->
  forallb (fun kv => f (snd kv)) (dict_set d k v) = true.
Proof.
  intros Hv. induction d as [|[k' v'] r IH]; simpl.
  - now rewrite Hv.
  - intros H. apply andb_true_iff in H. destruct H as [H1 H2].
    destruct (k' =? k); simpl.
    + now rewrite Hv, H2.
    + now rewrite H1, IH.
Qed.

Lemma In_dict_set_other (d : dict) k v k0 v0 :
  In (k, v) d -> k <> k0 -> In (k, v) (dict_set d k0 v0).
Proof.
  intros Hin Hne. induction d as [|[k' v'] r IH]; simpl; [contradiction|].
  destruct Hin as [Heq | Hin].
  - injection Heq as -> ->.
    destruct (k =? k0) eqn:E.
    + apply String.eqb_eq in E. contradiction.
    + now left.
  - destruct (k' =? k0); right; [assumption | now apply IH].
Qed.

Lemma forallb_In_false {A} (f : A -> bool) (l : list A) (x : A) :
  In x l -> f x = false -> forallb f l = false.
Proof.
  intros Hin Hx. destruct (forallb f l) eqn:E; [|reflexivity].
  rewrite forallb_forall in E. now rewrite (E x Hin) in Hx.
Qed.

Lemma request_params_serializable url_path parameters nonce :
  forallb (fun kv => serializable (snd kv)) parameters = true ->
  serializable (PDict (request_params url_path parameters nonce)) = true.
Proof.
  intros H. unfold request_params. cbn [serializable].
  apply forallb_dict_set; [reflexivity|].
  apply forallb_dict_set; [reflexivity | exact H].
Qed.

Lemma request_params_not_serializable url_path parameters nonce k v :
  In (k, v) parameters -> k <> "request" -> k <> "nonce" ->
  serializable v = false ->
  serializable (PDict (request_params url_path parameters nonce)) = false.
Proof.
  intros Hin Hr Hn Hv. unfold request_params. cbn [serializable].
  apply (forallb_In_false _ _ (k, v)); [|exact Hv].
  apply In_dict_set_other; [|exact Hn].
  apply In_dict_set_other; [exact Hin | exact Hr].
Qed.

Lemma private_req_not_serializable env url_path parameters st :
  serializable
    (PDict (request_params url_path parameters
              (to_ms (time_time env (reads st))))) = false ->
  private_req env url_path parameters st
  = (Raise TypeError, {| reads := S (reads st); sent := sent st |}).
Proof.
  intros H. rewrite private_req_run. cbv zeta.
  now rewrite (proj2 (dumps_serializable _) H).
Qed.

Lemma private_req_issues env url_path parameters st :
  serializable
    (PDict (request_params url_path parameters
              (to_ms (time_time env (reads st))))) = true ->
  get_password env KEYRING_NAMESPACE KEYRING_API_SECRET <> None ->
  exists req,
    sent (snd (private_req env url_path parameters st))
    = (sent st ++ [req])%list.
Proof.
  intros H Hsecret. rewrite private_req_run. cbv zeta.
  destruct (proj1 (dumps_serializable _) H) as [param_json ->].
  destruct (get_password env KEYRING_NAMESPACE KEYRING_API_SECRET)
    as [secret|]; [|contradiction].
  cbn [snd sent]. eauto.
Qed.

(** ** The keys of a dictionary *)

Lemma dict_contains_In (d : dict) (k : string) :
  dict_contains d k = true <-> In k (map fst d).
Proof.
  unfold dict_contains. induction d as [|[k' v'] r IH]; simpl.
  - split; [discriminate | contradiction].
  - destruct (k' =? k) eqn:E.
    + apply String.eqb_eq in E. split; [now left | reflexivity].
    + apply String.eqb_neq in E. rewrite IH. split; [now right|].
      intros [H | H]; [contradiction | exact H].
Qed.

Lemma dict_set_keys (d : dict) (k : string) (v : pyobj) :
  map fst (dict_set d k v)
  = if dict_contains d k then map fst d else (map fst d ++ [k])%list.
Proof.
  unfold dict_contains. induction d as [|[k' v'] r IH]; simpl; [reflexivity|].
  destruct (k' =? k) eqn:E; simpl; [reflexivity|].
  rewrite IH. now destruct (dict_get r k).
Qed.

Lemma dict_set_keys_app (d : dict) (k : string) (v : pyobj) :
  exists extra, map fst (dict_set d k v) = (map fst d ++ extra)%list.
Proof.
  rewrite dict_set_keys. destruct (dict_contains d k).
  - exists []. now rewrite app_nil_r.
  - now exists [k].
Qed.

Lemma dict_set_NoDup (d : dict) (k : string) (v : pyobj) :
  NoDup (map fst d) -> NoDup (map fst (dict_set d k v)).
Proof.
  intros H. rewrite dict_set_keys.
  destruct (dict_contains d k) eqn:E; [exact H|].
  apply NoDup_app; [exact H | repeat constructor; intros [] |].
  intros x Hx [<- | []].
  apply dict_contains_In in Hx. congruence.
Qed.

(** ** More on [private_req] *)

(** X1: a byte string among the caller's parameters (under a key other
    than [request] and [nonce]) stops the call at [json.dumps]: it raises
    [TypeError] and hands nothing to the transport, whatever the keyring
    holds.  When every value of the caller serialises and the keyring has a
    secret, one request is issued. *)
Theorem private_req_needs_serializable env url_path parameters st :
  ((exists k v, In (k, v) parameters /\ k <> "request" /\ k <> "nonce" /\
                serializable v = false) ->
   private_req env url_path parameters st
   = (Raise TypeError, {| reads := S (reads st); sent := sent st |})) /\
  (forallb (fun kv => serializable (snd kv)) parameters = true ->
   get_password env KEYRING_NAMESPACE KEYRING_API_SECRET <> None ->
   exists req,
     sent (snd (private_req env url_path parameters st))
     = (sent st ++ [req])%list).
Proof.
  split.
  - intros (k & v & Hin & Hr & Hn & Hv).
    apply private_req_not_serializable.
    now apply (request_params_not_serializable _ _ _ k v).
  - intros Hall Hsecret. apply private_req_issues; [|exact Hsecret].
    now apply request_params_serializable.
Qed.

Lemma private_req_needs_serializable_witness :
  private_req golden_env "withdraw/btc"
    [("address", PBytes (bytes_of_string "mzL8")); ("amount", PStr "1")] fresh
  = (Raise TypeError, {| reads := 1; sent := [] |}) /\
  exists req,
    sent (snd (private_req golden_env "order/new" golden_params fresh))
    = (sent fresh ++ [req])%list.
Proof.
  split.
  - apply (proj1 (private_req_needs_serializable golden_env "withdraw/btc"
                    [("address", PBytes (bytes_of_string "mzL8"));
                     ("amount", PStr "1")] fresh)).
    exists "address", (PBytes (bytes_of_string "mzL8")).
    split; [now left|]. split; [discriminate|]. split; [discriminate|].
    reflexivity.
  - apply (proj2 (private_req_needs_serializable golden_env "order/new"
                    golden_params fresh));
      [reflexivity | discriminate].
Defined.

(** X2: the mapping that is serialised into the payload of an issued
    request holds the versioned path under [request] and the timestamp
    under [nonce], whatever the caller had put under these two keys; every
    other key has the caller's value; the caller's keys keep their order,
    new keys come last, and no key is repeated unless the caller's mapping
    repeats one. *)
Theorem private_req_signed_mapping env url_path parameters st req :
  sent (snd (private_req env url_path parameters st))
    = (sent st ++ [req])%list ->
  exists m param_json hs,
    Json.dumps (PDict m) = Ok param_json /\
    headers req = Some hs /\
    dict_get hs "X-GEMINI-PAYLOAD"
      = Some (PBytes (Base64.b64encode (encode_utf8 param_json))) /\
    dict_get m "request"
      = Some (PStr ("/" ++ API_VERSION ++ "/" ++ url_path)) /\
    dict_get m "nonce"
      = Some (PInt (to_ms (time_time env (reads st)))) /\
    (forall k, k <> "request" -> k <> "nonce" ->
               dict_get m k = dict_get parameters k) /\
    (exists extra, map fst m = (map fst parameters ++ extra)%list) /\
    (NoDup (map fst parameters) -> NoDup (map fst m)).
Proof.
  rewrite private_req_run. cbv zeta.
  destruct (Json.dumps _) as [param_json|e] eqn:Hjson;
    [destruct (get_password env KEYRING_NAMESPACE KEYRING_API_SECRET)
       as [secret|]|];
    cbn [snd sent]; intros H;
    try (now apply app_one_not_self in H).
  apply app_inv_head in H. injection H as <-.
  eexists. exists param_json. eexists.
  split; [exact Hjson|].
  split; [reflexivity|]. split; [reflexivity|].
  split; [apply request_params_request|].
  split; [apply request_params_nonce|].
  split; [|split].
  - intros k Hr Hn. unfold request_params.
    rewrite !dict_get_set_other; [reflexivity | | ]; congruence.
  - unfold request_params.
    destruct (dict_set_keys_app parameters "request"
                (PStr ("/" ++ API_VERSION ++ "/" ++ url_path))) as [e1 H1].
    destruct (dict_set_keys_app
                (dict_set parameters "request"
                   (PStr ("/" ++ API_VERSION ++ "/" ++ url_path)))
                "nonce"
                (PInt (to_ms (time_time env (reads st)))))
      as [e2 H2].
    exists (e1 ++ e2)%list. now rewrite H2, H1, app_assoc.
  - intros Hnd. unfold request_params. now apply dict_set_NoDup, dict_set_NoDup.
Qed.

Lemma private_req_signed_mapping_witness :
  let parameters := [("nonce", PInt 1); ("order_id", PInt 7)] in
  let st' := snd (private_req golden_env "order/status" parameters fresh) in
  exists req,
    sent st' = [req] /\
    exists m param_json hs,
      Json.dumps (PDict m) = Ok param_json /\
      headers req = Some hs /\
      dict_get hs "X-GEMINI-PAYLOAD"
        = Some (PBytes (Base64.b64encode (encode_utf8 param_json))) /\
      dict_get m "request"
        = Some (PStr ("/" ++ API_VERSION ++ "/" ++ "order/status")) /\
      dict_get m "nonce"
        = Some (PInt (to_ms (time_time golden_env (reads fresh)))) /\
      (forall k, k <> "request" -> k <> "nonce" ->
                 dict_get m k = dict_get parameters k) /\
      (exists extra, map fst m = (map fst parameters ++ extra)%list) /\
      (NoDup (map fst parameters) -> NoDup (map fst m)).
Proof.
  intros parameters st'.
  exists (signed_request golden_env "order/status"
            (text_of (PDict (request_params "order/status" parameters
                               1000000)))
            "1234abcd").
  split; [reflexivity|].
  apply (private_req_signed_mapping golden_env "order/status" parameters
           fresh).
  reflexivity.
Defined.

(** X3: [new_order] turns [symbol], [amount] and [price] into text before
    they are signed: in the mapping it sends they are the texts [format]
    makes of them (a text as it is, an integer in decimal), beside the
    side as given, the type [exchange limit] and no options.  So no value
    given for the three can stop the call: with a secret in the keyring
    the order is sent as soon as [side] and a truthy [client_id]
    serialise.  A [side], or a truthy [client_id], that is a byte string
    raises [TypeError] with nothing sent. *)
Theorem new_order_text_fields env symbol amount price side client_id st :
  let signed :=
    request_params "order/new"
      (new_order_params env symbol amount price side client_id)
      (to_ms (time_time env (reads st))) in
  let run := new_order env symbol amount price side client_id st in
  (dict_get signed "symbol" = Some (PStr (py_str env symbol)) /\
   dict_get signed "amount" = Some (PStr (py_str env amount)) /\
   dict_get signed "price" = Some (PStr (py_str env price)) /\
   dict_get signed "side" = Some side /\
   dict_get signed "type" = Some (PStr "exchange limit") /\
   dict_get signed "options" = Some (PList [])) /\
  ((forall s, py_str env (PStr s) = s) /\
   (forall n, py_str env (PInt n) = str_of_Z n)) /\
  (serializable side = true ->
   (truthy client_id = true -> serializable client_id = true) ->
   forall secret,
     get_password env KEYRING_NAMESPACE KEYRING_API_SECRET = Some secret ->
     exists param_json,
       Json.dumps (PDict signed) = Ok param_json /\
       sent (snd run)
       = (sent st ++ [signed_request env "order/new" param_json secret])%list) /\
  (serializable side = false \/
   (truthy client_id = true /\ serializable client_id = false) ->
   run = (Raise TypeError, {| reads := S (reads st); sent := sent st |})).
Proof.
  cbv zeta. split; [|split; [|split]].
  - unfold request_params, new_order_params.
    destruct (truthy client_id); repeat split.
  - split; reflexivity.
  - intros Hside Hclient secret Hsecret.
    assert (Hser :
      serializable
        (PDict (request_params "order/new"
                  (new_order_params env symbol amount price side client_id)
                  (to_ms (time_time env (reads st))))) = true).
    { apply request_params_serializable.
      unfold new_order_params. destruct (truthy client_id).
      - cbn. now rewrite Hside, (Hclient eq_refl).
      - cbn. now rewrite Hside. }
    destruct (proj1 (dumps_serializable _) Hser) as [param_json Hjson].
    exists param_json. split; [exact Hjson|].
    unfold new_order. now apply private_req_sends.
  - intros H. unfold new_order. apply private_req_not_serializable.
    destruct H as [Hside | [Htruthy Hclient]].
    + apply (request_params_not_serializable _ _ _ "side" side);
        [|discriminate|discriminate|exact Hside].
      unfold new_order_params. destruct (truthy client_id); cbn; tauto.
    + apply (request_params_not_serializable _ _ _ "client_order_id"
               client_id);
        [|discriminate|discriminate|exact Hclient].
      unfold new_order_params. rewrite Htruthy. cbn. tauto.
Qed.

Lemma new_order_text_fields_witness :
  (exists param_json,
     Json.dumps
       (PDict (request_params "order/new"
                 (new_order_params golden_env (PStr "btcusd") (PInt 1)
                    (PInt 9000) (PStr "buy") (PInt 0))
                 (to_ms (time_time golden_env (reads fresh)))))
       = Ok param_json /\
     sent (snd (new_order golden_env (PStr "btcusd") (PInt 1) (PInt 9000)
                  (PStr "buy") (PInt 0) fresh))
     = (sent fresh
          ++ [signed_request golden_env "order/new" param_json
                "1234abcd"])%list) /\
  new_order golden_env (PStr "btcusd") (PInt 1) (PInt 9000)
    (PBytes (bytes_of_string "buy")) PNone fresh
  = (Raise TypeError, {| reads := 1; sent := [] |}).
Proof.
  split.
  - apply (proj1 (proj2 (proj2
             (new_order_text_fields golden_env (PStr "btcusd") (PInt 1)
                (PInt 9000) (PStr "buy") (PInt 0) fresh))));
      [reflexivity | discriminate | reflexivity].
  - apply (proj2 (proj2 (proj2
             (new_order_text_fields golden_env (PStr "btcusd") (PInt 1)
                (PInt 9000) (PBytes (bytes_of_string "buy")) PNone fresh)))).
    now left.
Defined.

(** ** Lengths of the payload and of the signature *)

Lemma be_bytes_length (n : nat) (z : Z) : List.length (be_bytes n z) = n.
Proof. induction n as [|n IH]; simpl; [reflexivity | now rewrite IH]. Qed.

Lemma compress_length (h : list Z) (blk : bytes) :
  List.length h = 8%nat -> List.length (SHA384.compress h blk) = 8%nat.
Proof.
  intros H. unfold SHA384.compress.
  rewrite length_map, length_combine, H. reflexivity.
Qed.

Lemma fold_compress_length (blocks : list bytes) (h : list Z) :
  List.length h = 8%nat ->
  List.length (fold_left SHA384.compress blocks h) = 8%nat.
Proof.
  revert h. induction blocks as [|blk r IH]; intros h H; simpl;
    [exact H | now apply IH, compress_length].
Qed.

Lemma flat_map_be_bytes_length (h : list Z) :
  List.length (flat_map (be_bytes 8) h) = (8 * List.length h)%nat.
Proof.
  induction h as [|x r IH]; [reflexivity|].
  change (flat_map (be_bytes 8) (x :: r))
    with (be_bytes 8 x ++ flat_map (be_bytes 8) r)%list.
  rewrite length_app, be_bytes_length, IH. simpl List.length. lia.
Qed.

Lemma sha384_digest_length (msg : bytes) :
  List.length (SHA384.digest msg) = 48%nat.
Proof.
  unfold SHA384.digest. cbv zeta.
  rewrite length_firstn, flat_map_be_bytes_length.
  rewrite fold_compress_length by reflexivity. reflexivity.
Qed.

Lemma hex_of_bytes_length (b : bytes) :
  String.length (hex_of_bytes b) = (2 * List.length b)%nat.
Proof.
  induction b as [|x r IH]; simpl; [reflexivity | rewrite IH; lia].
Qed.

Lemma hexdigest_length (key msg : bytes) :
  String.length (HMAC.hexdigest key msg) = 96%nat.
Proof.
  unfold HMAC.hexdigest, HMAC.digest. cbv zeta.
  now rewrite hex_of_bytes_length, sha384_digest_length.
Qed.

Lemma encode_utf8_length (s : string) :
  List.length (encode_utf8 s) = String.length s.
Proof.
  unfold encode_utf8, bytes_of_string, list_byte_of_string.
  rewrite length_map.
  induction s as [|c r IH]; simpl; [reflexivity | now rewrite IH].
Qed.

Lemma b64encode_length_upto (n : nat) (b : bytes) :
  (List.length b <= n)%nat ->
  List.length (Base64.b64encode b) = (4 * ((List.length b + 2) / 3))%nat.
Proof.
  revert b. induction n as [|n IH]; intros b Hb.
  - destruct b; [reflexivity | simpl in Hb; lia].
  - destruct b as [|x [|y [|z r]]]; try reflexivity.
    cbn [Base64.b64encode List.length].
    rewrite IH by (simpl in Hb; lia).
    replace (S (S (S (List.length r))) + 2)%nat
      with (List.length r + 2 + 1 * 3)%nat by lia.
    rewrite Nat.div_add by discriminate. lia.
Qed.

Lemma b64encode_length (b : bytes) :
  List.length (Base64.b64encode b) = (4 * ((List.length b + 2) / 3))%nat.
Proof. now apply (b64encode_length_upto (List.length b)). Qed.

(** X4: whatever the parameters and the secret, the signature header of an
    issued request is a text of 96 lowercase hexadecimal digits, and the
    payload header has four bytes for every three bytes of the JSON text,
    rounded up. *)
Theorem private_req_header_sizes env url_path parameters st req :
  sent (snd (private_req env url_path parameters st))
    = (sent st ++ [req])%list ->
  exists hs param_json payload signature,
    headers req = Some hs /\
    Json.dumps
      (PDict (request_params url_path parameters
                (to_ms (time_time env (reads st)))))
      = Ok param_json /\
    dict_get hs "X-GEMINI-PAYLOAD" = Some (PBytes payload) /\
    dict_get hs "X-GEMINI-SIGNATURE" = Some (PStr signature) /\
    List.length payload = (4 * ((String.length param_json + 2) / 3))%nat /\
    String.length signature = 96%nat /\
    lowercase_hex signature.
Proof.
  rewrite private_req_run. cbv zeta.
  destruct (Json.dumps _) as [param_json|e] eqn:Hjson;
    [destruct (get_password env KEYRING_NAMESPACE KEYRING_API_SECRET)
       as [secret|]|];
    cbn [snd sent]; intros H;
    try (now apply app_one_not_self in H).
  apply app_inv_head in H. injection H as <-.
  eexists. exists param_json. eexists. eexists.
  split; [reflexivity|]. split; [reflexivity|].
  split; [reflexivity|]. split; [reflexivity|].
  split; [|split].
  - now rewrite b64encode_length, encode_utf8_length.
  - apply hexdigest_length.
  - apply hex_of_bytes_lowercase.
Qed.

Lemma private_req_header_sizes_witness :
  exists hs param_json payload signature,
    headers golden_request = Some hs /\
    Json.dumps
      (PDict (request_params "order/new" golden_params
                (to_ms (time_time golden_env (reads fresh)))))
      = Ok param_json /\
    dict_get hs "X-GEMINI-PAYLOAD" = Some (PBytes payload) /\
    dict_get hs "X-GEMINI-SIGNATURE" = Some (PStr signature) /\
    List.length payload = (4 * ((String.length param_json + 2) / 3))%nat /\
    String.length signature = 96%nat /\
    lowercase_hex signature.
Proof.
  apply (private_req_header_sizes golden_env "order/new" golden_params fresh
           golden_request).
  reflexivity.
Defined.

(** ** More on [parse_response] *)

Lemma parse_response_decoded env response data :
  json_loads env (text response) = Ok data ->
  parse_response env response =
  match data with
  | PDict d =>
      match dict_get d "result" with
      | Some v =>
          if py_eq v (PStr "error") then
            match dict_get d "reason" with
            | None => Raise (KeyError "reason")
            | Some reason =>
                match dict_get d "message" with
                | None => Raise (KeyError "message")
                | Some message =>
                    Raise (RuntimeError
                             (py_str env reason ++ ": " ++ py_str env message))
                end
            end
          else Ok data
      | None => Ok data
      end
  | PList l =>
      if existsb (fun x => py_eq x (PStr "result")) l
      then Raise TypeError else Ok data
  | PStr s => if str_contains s "result" then Raise TypeError else Ok data
  | _ => Raise TypeError
  end.
Proof.
  intros Hloads. unfold parse_response. rewrite Hloads. cbn [rbind].
  destruct data as [| b | n | s | b | l | d]; try reflexivity.
  - cbn [contains rbind]. now destruct (str_contains s "result").
  - cbn [contains rbind].
    now destruct (existsb (fun x => py_eq x (PStr "result")) l).
  - cbn [contains rbind getitem]. unfold dict_contains.
    destruct (dict_get d "result") as [v|]; [|reflexivity].
    cbn [rbind]. destruct (py_eq v (PStr "error")); [|reflexivity].
    destruct (dict_get d "reason") as [reason|]; [|reflexivity].
    cbn [rbind]. now destruct (dict_get d "message").
Qed.

Lemma parse_response_undecoded env response e :
  json_loads env (text response) = Raise e ->
  parse_response env response = Raise e.
Proof. intros H. unfold parse_response. now rewrite H. Qed.

(** X5: the parser succeeds exactly on the bodies that decode to an
    object that is not an error envelope, to a list with no entry equal to
    the text [result], or to a text in which [result] does not occur; and
    what it returns is then the decoded value itself. *)
Theorem parse_response_ok_iff env response v :
  parse_response env response = Ok v <->
  json_loads env (text response) = Ok v /\
  plain_payload v = true /\
  error_envelope v = false.
Proof.
  split.
  - destruct (json_loads env (text response)) as [data|e] eqn:Hloads.
    + rewrite (parse_response_decoded env response data Hloads).
      destruct data as [| b | n | s | b | l | d]; try discriminate.
      * destruct (str_contains s "result") eqn:E; [discriminate|].
        intros H. injection H as <-. cbn [plain_payload error_envelope].
        rewrite E. repeat split.
      * destruct (existsb (fun x => py_eq x (PStr "result")) l) eqn:E;
          [discriminate|].
        intros H. injection H as <-. cbn [plain_payload error_envelope].
        rewrite E. repeat split.
      * destruct (dict_get d "result") as [r|] eqn:Er.
        -- destruct (py_eq r (PStr "error")) eqn:E.
           ++ destruct (dict_get d "reason"); [|discriminate].
              destruct (dict_get d "message"); discriminate.
           ++ intros H. injection H as <-. cbn [plain_payload error_envelope].
              rewrite Er, E. repeat split.
        -- intros H. injection H as <-. cbn [plain_payload error_envelope].
           rewrite Er. repeat split.
    + rewrite (parse_response_undecoded env response e Hloads). discriminate.
  - intros (Hloads & Hplain & Henv).
    rewrite (parse_response_decoded env response v Hloads).
    destruct v as [| b | n | s | b | l | d]; try discriminate Hplain.
    + simpl in Hplain. apply negb_true_iff in Hplain. now rewrite Hplain.
    + simpl in Hplain. apply negb_true_iff in Hplain. now rewrite Hplain.
    + simpl in Henv. destruct (dict_get d "result"); [|reflexivity].
      now rewrite Henv.
Qed.

Lemma parse_response_ok_iff_witness :
  parse_response golden_env {| status_code := 200; text := text_of ticker_obj |}
  = Ok ticker_obj /\
  json_loads golden_env (text_of (PList [])) = Ok (PList []) /\
  plain_payload (PList []) = true /\
  error_envelope (PList []) = false.
Proof.
  split.
  - apply (proj2 (parse_response_ok_iff golden_env
                    {| status_code := 200; text := text_of ticker_obj |}
                    ticker_obj)).
    repeat split.
  - apply (proj1 (parse_response_ok_iff golden_env
                    {| status_code := 200; text := text_of (PList []) |}
                    (PList []))).
    reflexivity.
Defined.

(** X6: an error envelope that lacks the [reason] entry makes the parser
    raise [KeyError] for [reason]; one that has [reason] but lacks
    [message] raises [KeyError] for [message].  The message of the exchange
    is lost in both cases. *)
Theorem parse_response_missing_field env response d :
  json_loads env (text response) = Ok (PDict d) ->
  dict_get d "result" = Some (PStr "error") ->
  (dict_get d "reason" = None ->
   parse_response env response = Raise (KeyError "reason")) /\
  (dict_get d "reason" <> None -> dict_get d "message" = None ->
   parse_response env response = Raise (KeyError "message")).
Proof.
  intros Hloads Hresult.
  rewrite (parse_response_decoded env response _ Hloads), Hresult.
  cbn [py_eq]. rewrite String.eqb_refl.
  split.
  - now intros ->.
  - intros Hreason ->. now destruct (dict_get d "reason").
Qed.

Lemma parse_response_missing_field_witness :
  let bare := PDict [("result", PStr "error")] in
  let half := PDict [("result", PStr "error"); ("reason", PStr "Maintenance")] in
  parse_response (env_decoding [bare; half] bare)
    {| status_code := 200; text := text_of bare |}
  = Raise (KeyError "reason") /\
  parse_response (env_decoding [bare; half] bare)
    {| status_code := 200; text := text_of half |}
  = Raise (KeyError "message").
Proof.
  intros bare half. split.
  - apply (proj1 (parse_response_missing_field
                    (env_decoding [bare; half] bare)
                    {| status_code := 200; text := text_of bare |}
                    [("result", PStr "error")] eq_refl eq_refl)).
    reflexivity.
  - apply (proj2 (parse_response_missing_field
                    (env_decoding [bare; half] bare)
                    {| status_code := 200; text := text_of half |}
                    [("result", PStr "error"); ("reason", PStr "Maintenance")]
                    eq_refl eq_refl));
      [discriminate | reflexivity].
Defined.

(** X7: a body that decodes to [None], a boolean or a number raises
    [TypeError], and so does a list that has the text [result] among its
    entries or a text in which [result] occurs. *)
Theorem parse_response_type_error env response data :
  json_loads env (text response) = Ok data ->
  plain_payload data = false ->
  parse_response env response = Raise TypeError.
Proof.
  intros Hloads Hplain.
  rewrite (parse_response_decoded env response _ Hloads).
  destruct data as [| b | n | s | b | l | d]; try reflexivity.
  - simpl in Hplain. apply negb_false_iff in Hplain. now rewrite Hplain.
  - simpl in Hplain. apply negb_false_iff in Hplain. now rewrite Hplain.
  - discriminate Hplain.
Qed.

Lemma parse_response_type_error_witness :
  let tags := PList [PStr "status"; PStr "result"] in
  parse_response (env_decoding [tags; PNone] tags)
    {| status_code := 200; text := text_of tags |} = Raise TypeError /\
  parse_response (env_decoding [tags; PNone] tags)
    {| status_code := 200; text := text_of PNone |} = Raise TypeError.
Proof.
  intros tags. split.
  - apply (parse_response_type_error (env_decoding [tags; PNone] tags)
             {| status_code := 200; text := text_of tags |} tags);
      reflexivity.
  - apply (parse_response_type_error (env_decoding [tags; PNone] tags)
             {| status_code := 200; text := text_of PNone |} PNone);
      reflexivity.
Defined.

(** ** What a call returns *)

(** X8: once the parameters are serialised and signed, the request is in
    the log of the transport whatever happens next.  An error of the
    transport is returned as it is; an answer is handed to
    [parse_response], so that an error envelope of the exchange comes back
    as [RuntimeError] with the text [reason: message]. *)
Theorem private_req_outcome env url_path parameters st param_json secret :
  Json.dumps
    (PDict (request_params url_path parameters
              (to_ms (time_time env (reads st))))) = Ok param_json ->
  get_password env KEYRING_NAMESPACE KEYRING_API_SECRET = Some secret ->
  let req := signed_request env url_path param_json secret in
  let logged :=
    {| reads := S (reads st); sent := (sent st ++ [req])%list |} in
  (forall e, server env (sent st) req = Raise e ->
     private_req env url_path parameters st = (Raise e, logged)) /\
  (forall response, server env (sent st) req = Ok response ->
     private_req env url_path parameters st
     = (parse_response env response, logged)) /\
  (forall response d reason message,
     server env (sent st) req = Ok response ->
     json_loads env (text response) = Ok (PDict d) ->
     dict_get d "result" = Some (PStr "error") ->
     dict_get d "reason" = Some reason ->
     dict_get d "message" = Some message ->
     private_req env url_path parameters st
     = (Raise (RuntimeError (py_str env reason ++ ": " ++ py_str env message)),
        logged)).
Proof.
  intros Hjson Hsecret req logged.
  rewrite private_req_run. cbv zeta. rewrite Hjson, Hsecret.
  fold req. fold logged.
  split; [|split].
  - intros e ->. reflexivity.
  - intros response ->. reflexivity.
  - intros response d reason message -> Hloads Hresult Hreason Hmessage.
    cbn [rbind].
    rewrite (parse_response_decoded env response _ Hloads).
    rewrite Hresult, Hreason, Hmessage. cbn [py_eq].
    now rewrite String.eqb_refl.
Qed.

Lemma private_req_outcome_witness :
  let env := sample_env 1000 1 (Some "mykey") (Some "1234abcd") error_obj in
  let param_json := text_of (PDict (request_params "balances" [] 1000000)) in
  private_req env "balances" [] fresh
  = (Raise (RuntimeError "InvalidSignature: bad sig"),
     {| reads := 1;
        sent := [signed_request env "balances" param_json "1234abcd"] |}).
Proof.
  intros env param_json.
  apply (proj2 (proj2 (private_req_outcome env "balances" [] fresh
                         param_json "1234abcd" eq_refl eq_refl))
           {| status_code := 200; text := text_of error_obj |}
           [ ("result", PStr "error"); ("reason", PStr "InvalidSignature");
             ("message", PStr "bad sig") ]
           (PStr "InvalidSignature") (PStr "bad sig"));
    reflexivity.
Defined.

(** X9: [public_req] always hands exactly one request to the transport,
    also when it raises: a GET to [BASE_URL/API_VERSION/url_path] with the
    caller's parameters as query, no headers and no body, the clock not
    being read.  It returns the error of the transport, or what
    [parse_response] makes of the answer. *)
Theorem public_req_get env url_path parameters st :
  let req :=
    {| method := "GET";
       url := BASE_URL ++ "/" ++ API_VERSION ++ "/" ++ url_path;
       params := Some parameters; headers := None; data := None |} in
  snd (public_req env url_path parameters st)
    = {| reads := reads st; sent := (sent st ++ [req])%list |} /\
  issued st (snd (public_req env url_path parameters st)) = [req] /\
  (forall e, server env (sent st) req = Raise e ->
     fst (public_req env url_path parameters st) = Raise e) /\
  (forall response, server env (sent st) req = Ok response ->
     fst (public_req env url_path parameters st)
     = parse_response env response).
Proof.
  intros req.
  assert (Hrun : public_req env url_path parameters st
                 = (rbind (server env (sent st) req) (parse_response env),
                    {| reads := reads st; sent := (sent st ++ [req])%list |})).
  { unfold public_req, bind, lift, requests_request. cbv zeta. fold req.
    destruct (server env (sent st) req); reflexivity. }
  rewrite Hrun. cbn [fst snd].
  split; [reflexivity|].
  split; [now apply issued_app|].
  split.
  - now intros e ->.
  - now intros response ->.
Qed.

Lemma public_req_get_witness :
  fst (public_req (sample_env 1000 1 None None error_obj) "pubticker/btcusd"
         [] fresh)
  = Raise (RuntimeError "InvalidSignature: bad sig").
Proof.
  rewrite (proj2 (proj2 (proj2
             (public_req_get (sample_env 1000 1 None None error_obj)
                "pubticker/btcusd" [] fresh)))
             {| status_code := 200; text := text_of error_obj |} eq_refl).
  reflexivity.
Defined.

(** ** More on the trade manager *)

Lemma cancel_run_ok env (self self' : TradeManager.t) url_path st st' :
  (_ <- private_req env url_path [] ;;
   ret (TradeManager.set_sell_orders
          (TradeManager.set_buy_orders self (PyList [])) (PyList [])))%M st
  = (Ok self', st') ->
  self' = TradeManager.set_sell_orders
            (TradeManager.set_buy_orders self (PyList [])) (PyList []).
Proof.
  rewrite cancel_run.
  destruct (private_req env url_path [] st) as [[v|e] st1]; intros H;
    [now injection H as <- _ | discriminate H].
Qed.

Lemma update_order_on_lists (self : TradeManager.t) (order : Order.t) :
  TradeManager.buy_orders self = PyList [] ->
  TradeManager.sell_orders self = PyList [] ->
  py_eq (Order.symbol order) (TradeManager.symbol self) = true ->
  Order.side order = PStr "buy" \/ Order.side order = PStr "sell" ->
  TradeManager._update_order self order = Raise TypeError.
Proof.
  intros Hbuy Hsell Hsym Hside. unfold TradeManager._update_order.
  rewrite Hsym, Hbuy, Hsell. cbn [negb].
  destruct Hside as [-> | ->]; reflexivity.
Qed.

(** X10: after [cancel_all] or [cancel_session] has returned, the two
    collections of the manager are empty lists, and the manager can no
    longer file an order: [_update_order] with an order of the manager's
    symbol and of side [buy] or [sell] raises [TypeError]. *)
Theorem cancel_disables_tracking env self st self' st' :
  TradeManager.cancel_all env self st = (Ok self', st') \/
  TradeManager.cancel_session env self st = (Ok self', st') ->
  TradeManager.buy_orders self' = PyList [] /\
  TradeManager.sell_orders self' = PyList [] /\
  TradeManager.symbol self' = TradeManager.symbol self /\
  TradeManager.order_book self' = TradeManager.order_book self /\
  forall order,
    py_eq (Order.symbol order) (TradeManager.symbol self') = true ->
    Order.side order = PStr "buy" \/ Order.side order = PStr "sell" ->
    TradeManager._update_order self' order = Raise TypeError.
Proof.
  intros H.
  assert (Hself : self' = TradeManager.set_sell_orders
                            (TradeManager.set_buy_orders self (PyList []))
                            (PyList [])).
  { destruct H as [H | H]; [unfold TradeManager.cancel_all in H
                           | unfold TradeManager.cancel_session in H];
      now apply cancel_run_ok in H. }
  subst self'. repeat split.
  intros order Hsym Hside. now apply update_order_on_lists.
Qed.

Lemma cancel_disables_tracking_witness :
  let self := TradeManager.init (PStr "btcusd") in
  exists self' st',
    TradeManager.cancel_all golden_env self fresh = (Ok self', st') /\
    TradeManager._update_order self'
      (sample_order (PStr "btcusd") (PStr "buy") 7) = Raise TypeError.
Proof.
  intros self. eexists. eexists.
  split.
  - unfold TradeManager.cancel_all. rewrite cancel_run, private_req_run.
    reflexivity.
  - apply (cancel_disables_tracking golden_env self fresh _
             {| reads := 1;
                sent := [signed_request golden_env "orer/cancel/all"
                           (text_of (PDict (request_params "orer/cancel/all"
                                              [] 1000000)))
                           "1234abcd"] |});
      [|reflexivity|now left].
    left. unfold TradeManager.cancel_all.
    rewrite cancel_run, private_req_run. reflexivity.
Defined.

Lemma odict_set_idem d k v :
  odict_set (odict_set d k v) k v = odict_set d k v.
Proof.
  induction d as [|[k' v'] r IH]; simpl.
  - now rewrite key_eqb_refl.
  - destruct (key_eqb k' k) eqn:E; simpl; rewrite E; [reflexivity|].
    now rewrite IH.
Qed.

Lemma odict_set_length d k v :
  List.length (odict_set d k v)
  = match odict_get d k with
    | Some _ => List.length d
    | None => S (List.length d)
    end.
Proof.
  induction d as [|[k' v'] r IH]; simpl; [reflexivity|].
  destruct (key_eqb k' k); simpl; [reflexivity|].
  rewrite IH. now destruct (odict_get r k).
Qed.

(** The outcomes of [_update_order] that are not an error. *)
Lemma update_order_ok (self self' : TradeManager.t) (order : Order.t) :
  TradeManager._update_order self order = Ok self' ->
  (py_eq (Order.symbol order) (TradeManager.symbol self) = false /\
   self' = self) \/
  (py_eq (Order.symbol order) (TradeManager.symbol self) = true /\
   Order.side order = PStr "buy" /\
   exists d, TradeManager.buy_orders self = OrderedDict d /\
             self' = TradeManager.set_buy_orders self
                       (OrderedDict (odict_set d (Order.id order) order))) \/
  (py_eq (Order.symbol order) (TradeManager.symbol self) = true /\
   Order.side order = PStr "sell" /\
   exists d, TradeManager.sell_orders self = OrderedDict d /\
             self' = TradeManager.set_sell_orders self
                       (OrderedDict (odict_set d (Order.id order) order))).
Proof.
  unfold TradeManager._update_order.
  destruct (py_eq (Order.symbol order) (TradeManager.symbol self)) eqn:Hsym;
    cbn [negb].
  - destruct (py_eq (Order.side order) (PStr "buy")) eqn:Eb.
    + apply py_eq_str in Eb.
      destruct (TradeManager.buy_orders self) as [d|l] eqn:Hc;
        cbn [orders_setitem rbind]; intros H; [|discriminate H].
      injection H as <-. right. left. repeat split; eauto.
    + destruct (py_eq (Order.side order) (PStr "sell")) eqn:Es.
      * apply py_eq_str in Es.
        destruct (TradeManager.sell_orders self) as [d|l] eqn:Hc;
          cbn [orders_setitem rbind]; intros H; [|discriminate H].
        injection H as <-. right. right. repeat split; eauto.
      * destruct (Order.side order); discriminate.
  - intros H. injection H as <-. now left.
Qed.

(** X11: filing the same order twice is filing it once: when
    [_update_order] has returned, a second call with the same order
    returns too and leaves the manager as the first call left it. *)
Theorem update_order_idempotent (self self' : TradeManager.t) order :
  TradeManager._update_order self order = Ok self' ->
  TradeManager._update_order self' order = Ok self'.
Proof.
  intros H. destruct (update_order_ok self self' order H)
    as [[Hsym ->] | [(Hsym & Hside & d & Hd & ->)
                    | (Hsym & Hside & d & Hd & ->)]].
  - exact H.
  - unfold TradeManager._update_order.
    cbn [TradeManager.symbol TradeManager.set_buy_orders
         TradeManager.buy_orders].
    rewrite Hsym, Hside. cbn [negb py_eq]. rewrite String.eqb_refl.
    cbn [orders_setitem rbind]. rewrite odict_set_idem. reflexivity.
  - unfold TradeManager._update_order.
    cbn [TradeManager.symbol TradeManager.set_sell_orders
         TradeManager.sell_orders].
    rewrite Hsym, Hside. cbn [negb py_eq].
    replace ("sell" =? "buy") with false by reflexivity.
    rewrite String.eqb_refl.
    cbn [orders_setitem rbind]. rewrite odict_set_idem. reflexivity.
Qed.

Lemma update_order_idempotent_witness :
  let self := TradeManager.init (PStr "btcusd") in
  let order := sample_order (PStr "btcusd") (PStr "buy") 7 in
  let self' :=
    TradeManager.set_buy_orders self
      (OrderedDict [(Some {| coefficient := 7; exponent := 0 |}, order)]) in
  TradeManager._update_order self' order = Ok self'.
Proof.
  intros self order self'.
  apply (update_order_idempotent self self' order). reflexivity.
Defined.

(** X12: [_update_order] touches one entry at most.  The orders filed
    under any other id, in either collection, stay as they were, and each
    collection keeps its size or grows by one; the collection of the
    order's side grows exactly when the id was not filed there. *)
Theorem update_order_others (self self' : TradeManager.t) order :
  TradeManager._update_order self order = Ok self' ->
  (forall k, key_eqb (Order.id order) k = false ->
     orders_get (TradeManager.buy_orders self') k
       = orders_get (TradeManager.buy_orders self) k /\
     orders_get (TradeManager.sell_orders self') k
       = orders_get (TradeManager.sell_orders self) k) /\
  (orders_len (TradeManager.buy_orders self)
     <= orders_len (TradeManager.buy_orders self')
     <= S (orders_len (TradeManager.buy_orders self)))%nat /\
  (orders_len (TradeManager.sell_orders self)
     <= orders_len (TradeManager.sell_orders self')
     <= S (orders_len (TradeManager.sell_orders self)))%nat /\
  (py_eq (Order.symbol order) (TradeManager.symbol self) = true ->
   Order.side order = PStr "buy" ->
   orders_len (TradeManager.buy_orders self')
   = match orders_get (TradeManager.buy_orders self) (Order.id order) with
     | Some _ => orders_len (TradeManager.buy_orders self)
     | None => S (orders_len (TradeManager.buy_orders self))
     end).
Proof.
  intros H. destruct (update_order_ok self self' order H)
    as [[Hsym ->] | [(Hsym & Hside & d & Hd & ->)
                    | (Hsym & Hside & d & Hd & ->)]].
  - split; [now intros k _|]. split; [lia|]. split; [lia|].
    intros Hsym'. congruence.
  - cbn [TradeManager.set_buy_orders TradeManager.buy_orders
         TradeManager.sell_orders]. rewrite Hd.
    cbn [orders_get orders_len]. rewrite odict_set_length.
    split; [|split; [|split]].
    + intros k Hk. split; [now apply odict_get_set_other | reflexivity].
    + destruct (odict_get d (Order.id order)); lia.
    + lia.
    + reflexivity.
  - cbn [TradeManager.set_sell_orders TradeManager.buy_orders
         TradeManager.sell_orders]. rewrite Hd.
    cbn [orders_get orders_len]. rewrite odict_set_length.
    split; [|split; [|split]].
    + intros k Hk. split; [reflexivity | now apply odict_get_set_other].
    + lia.
    + destruct (odict_get d (Order.id order)); lia.
    + intros _ Hbuy. rewrite Hbuy in Hside. discriminate Hside.
Qed.

Lemma update_order_others_witness :
  let order7 := sample_order (PStr "btcusd") (PStr "buy") 7 in
  let order8 := sample_order (PStr "btcusd") (PStr "buy") 8 in
  let key7 := Some {| coefficient := 7; exponent := 0 |} in
  let self :=
    TradeManager.set_buy_orders (TradeManager.init (PStr "btcusd"))
      (OrderedDict [(key7, order7)]) in
  let self' :=
    TradeManager.set_buy_orders self
      (OrderedDict [(key7, order7);
                    (Some {| coefficient := 8; exponent := 0 |}, order8)]) in
  orders_get (TradeManager.buy_orders self') key7
  = orders_get (TradeManager.buy_orders self) key7.
Proof.
  intros order7 order8 key7 self self'.
  apply (proj1 (update_order_others self self' order8 eq_refl) key7).
  reflexivity.
Defined.

(** ** An invariant of the trade manager *)

Lemma odict_set_Forall (P : order_key * Order.t -> Prop) d k v :
  Forall P d ->
  (forall k', key_eqb k' k = true -> P (k', v)) ->
  Forall P (odict_set d k v).
Proof.
  intros Hd Hv. induction Hd as [|[k' v'] r Hx Hr IH]; simpl.
  - constructor; [apply Hv, key_eqb_refl | constructor].
  - destruct (key_eqb k' k) eqn:E.
    + constructor; [now apply Hv | exact Hr].
    + constructor; [exact Hx | exact IH].
Qed.

Lemma odict_set_unique d k v :
  unique_keys d -> unique_keys (odict_set d k v).
Proof.
  induction d as [|[k' v'] r IH]; simpl.
  - intros _. split; [reflexivity | exact I].
  - intros [Hfresh Hr]. destruct (key_eqb k' k) eqn:E; simpl.
    + split; assumption.
    + split; [|now apply IH].
      rewrite odict_get_set_other; [exact Hfresh|].
      now rewrite key_eqb_sym.
Qed.

Lemma well_filed_set symbol side d (order : Order.t) :
  well_filed symbol side (OrderedDict d) ->
  py_eq (Order.symbol order) symbol = true ->
  Order.side order = PStr side ->
  well_filed symbol side
    (OrderedDict (odict_set d (Order.id order) order)).
Proof.
  intros [Hall Huniq] Hsym Hside. split.
  - apply odict_set_Forall; [exact Hall|].
    intros k' Hk'. repeat split; assumption.
  - now apply odict_set_unique.
Qed.

(** X13: in a manager obtained from the constructor by calls of
    [_update_order], [cancel_session] and [cancel_all] that returned, the
    symbol is the one given to the constructor; as long as a collection
    is a dictionary, every entry of [buy_orders] is an order of that symbol
    and of side [buy] filed under its own id, every entry of [sell_orders]
    one of side [sell], and no id is filed twice in a collection; a
    collection that is a list is empty. *)
Theorem reachable_well_filed env symbol self :
  reachable env symbol self ->
  TradeManager.symbol self = symbol /\
  well_filed symbol "buy" (TradeManager.buy_orders self) /\
  well_filed symbol "sell" (TradeManager.sell_orders self).
Proof.
  induction 1 as [| self order self' _ IH Hstep
                  | self st self' st' _ IH Hstep
                  | self st self' st' _ IH Hstep].
  - repeat split; constructor.
  - destruct IH as (Hsymbol & Hbuy & Hsell).
    destruct (update_order_ok self self' order Hstep)
      as [[Hsym ->] | [(Hsym & Hside & d & Hd & ->)
                      | (Hsym & Hside & d & Hd & ->)]].
    + now repeat split.
    + cbn [TradeManager.set_buy_orders TradeManager.symbol
           TradeManager.buy_orders TradeManager.sell_orders].
      split; [exact Hsymbol|]. split; [|exact Hsell].
      rewrite Hd in Hbuy. rewrite Hsymbol in Hsym.
      now apply well_filed_set.
    + cbn [TradeManager.set_sell_orders TradeManager.symbol
           TradeManager.buy_orders TradeManager.sell_orders].
      split; [exact Hsymbol|]. split; [exact Hbuy|].
      rewrite Hd in Hsell. rewrite Hsymbol in Hsym.
      now apply well_filed_set.
  - unfold TradeManager.cancel_session in Hstep.
    apply cancel_run_ok in Hstep. subst self'.
    destruct IH as (Hsymbol & _ & _). now repeat split.
  - unfold TradeManager.cancel_all in Hstep.
    apply cancel_run_ok in Hstep. subst self'.
    destruct IH as (Hsymbol & _ & _). now repeat split.
Qed.

Lemma reachable_well_filed_witness :
  let order := sample_order (PStr "btcusd") (PStr "sell") 7 in
  let self :=
    TradeManager.set_sell_orders (TradeManager.init (PStr "btcusd"))
      (OrderedDict [(Some {| coefficient := 7; exponent := 0 |}, order)]) in
  TradeManager.symbol self = PStr "btcusd" /\
  well_filed (PStr "btcusd") "buy" (TradeManager.buy_orders self) /\
  well_filed (PStr "btcusd") "sell" (TradeManager.sell_orders self).
Proof.
  intros order self.
  apply (reachable_well_filed golden_env (PStr "btcusd") self).
  apply (reach_update golden_env (PStr "btcusd")
           (TradeManager.init (PStr "btcusd")) order self).
  - apply reach_init.
  - reflexivity.
Defined.

(** ** The fund manager *)

Lemma withdraw_run env (self : FundManager.t) address currency amount st :
  FundManager.withdraw env self address currency amount st
  = match private_req env ("withdraw/" ++ py_str env currency)
            [("address", address); ("amount", amount)] st with
    | (Ok data, st') =>
        (Ok (data,
             {| FundManager.balances := FundManager.balances self;
                FundManager.last_update := FundManager.last_update self;
                FundManager.withdrawals :=
                  (FundManager.withdrawals self ++ [data])%list |}),
         st')
    | (Raise e, st') => (Raise e, st')
    end.
Proof.
  unfold FundManager.withdraw, bind, ret. cbv zeta.
  destruct (private_req env _ _ st) as [[data|e] st']; reflexivity.
Qed.

(** X14: [withdraw] signs the address and the amount as they are given,
    followed by [request] and [nonce], and posts them to
    [/v1/withdraw/<currency>].  When it returns, the answer of the
    exchange is the last entry of [withdrawals], after the entries that
    were there, and [balances] and [last_update] are as before. *)
Theorem withdraw_records env self address currency amount st :
  let path := "withdraw/" ++ py_str env currency in
  let nonce := to_ms (time_time env (reads st)) in
  let run := FundManager.withdraw env self address currency amount st in
  (forall answer self',
     fst run = Ok (answer, self') ->
     FundManager.withdrawals self'
       = (FundManager.withdrawals self ++ [answer])%list /\
     FundManager.balances self' = FundManager.balances self /\
     FundManager.last_update self' = FundManager.last_update self /\
     exists req, sent (snd run) = (sent st ++ [req])%list) /\
  (forall param_json secret,
     Json.dumps
       (PDict [ ("address", address); ("amount", amount);
                ("request", PStr ("/" ++ API_VERSION ++ "/" ++ path));
                ("nonce", PInt nonce) ]) = Ok param_json ->
     get_password env KEYRING_NAMESPACE KEYRING_API_SECRET = Some secret ->
     sent (snd run)
     = (sent st ++ [signed_request env path param_json secret])%list).
Proof.
  cbv zeta. rewrite withdraw_run, private_req_run. cbv zeta.
  change (request_params ("withdraw/" ++ py_str env currency)
            [("address", address); ("amount", amount)]
            (to_ms (time_time env (reads st))))
    with [ ("address", address); ("amount", amount);
           ("request",
             PStr ("/" ++ API_VERSION ++ "/" ++ "withdraw/"
                     ++ py_str env currency));
           ("nonce", PInt (to_ms (time_time env (reads st)))) ].
  destruct (Json.dumps _) as [param_json|e].
  - destruct (get_password env KEYRING_NAMESPACE KEYRING_API_SECRET)
      as [secret|].
    + destruct (rbind (server env (sent st) _) (parse_response env))
        as [data|e]; cbn [fst snd sent]; split.
      * intros answer self' H. injection H as <- <-.
        cbn [FundManager.withdrawals FundManager.balances
             FundManager.last_update].
        repeat split. eauto.
      * intros pj s Hpj Hs. injection Hpj as <-. injection Hs as <-.
        reflexivity.
      * intros answer self' H. discriminate H.
      * intros pj s Hpj Hs. injection Hpj as <-. injection Hs as <-.
        reflexivity.
    + cbn [fst snd sent]. split.
      * intros answer self' H. discriminate H.
      * intros pj s _ Hs. discriminate Hs.
  - cbn [fst snd sent]. split.
    + intros answer self' H. discriminate H.
    + intros pj s Hpj _. discriminate Hpj.
Qed.

Lemma withdraw_records_witness :
  let env := sample_env 1000 1 (Some "mykey") (Some "1234abcd") (PDict []) in
  let run :=
    FundManager.withdraw env FundManager.init (PStr "mzL8") (PStr "btc")
      (PStr "1") fresh in
  exists answer self',
    fst run = Ok (answer, self') /\
    FundManager.withdrawals self' = [answer].
Proof.
  intros env run. exists (PDict []).
  exists {| FundManager.balances := None; FundManager.last_update := None;
            FundManager.withdrawals := [PDict []] |}.
  assert (Hrun : fst run
                 = Ok (PDict [],
                       {| FundManager.balances := None;
                          FundManager.last_update := None;
                          FundManager.withdrawals := [PDict []] |})).
  { unfold run. rewrite withdraw_run, private_req_run. reflexivity. }
  split; [exact Hrun|].
  exact (proj1 (proj1 (withdraw_records env FundManager.init (PStr "mzL8")
                         (PStr "btc") (PStr "1") fresh) _ _ Hrun)).
Defined.

(** ** Optional fields *)

(** X15: [read_field] gives a value only for an object that has the
    field, and then the value its [ctor] makes of the entry; for an object
    without the field it gives [None] and does not call [ctor].  With
    [bool] as [ctor] an entry that is present but falsy, such as JSON
    [null], reads as [False], not as [None]. *)
Theorem read_field_cases {A : Type} (data : pyobj) (field : string)
    (ctor : pyobj -> result A) :
  (forall a, read_field data field ctor = Ok (Some a) ->
     exists d v, data = PDict d /\ dict_get d field = Some v /\
                 ctor v = Ok a) /\
  (forall d, data = PDict d -> dict_get d field = None ->
     read_field data field ctor = Ok None) /\
  (forall d v, data = PDict d -> dict_get d field = Some v ->
     read_field data field ctor
     = match ctor v with Ok a => Ok (Some a) | Raise e => Raise e end) /\
  (forall d, data = PDict d ->
     read_field data field bool_ctor
     = Ok (option_map truthy (dict_get d field))).
Proof.
  split; [|split; [|split]].
  - intros a. unfold read_field.
    destruct data as [| b | n | s | b | l | d]; cbn [contains rbind];
      try discriminate.
    + destruct (str_contains s field); discriminate.
    + destruct (existsb (fun x => py_eq x (PStr field)) l); discriminate.
    + unfold dict_contains. cbn [getitem].
      destruct (dict_get d field) as [v|] eqn:Hget; [|discriminate].
      cbn [rbind]. destruct (ctor v) as [a'|e] eqn:E; [|discriminate].
      cbn [rbind]. intros H. injection H as <-.
      exists d, v. repeat split; assumption.
  - intros d -> Hget. unfold read_field. cbn [contains rbind].
    unfold dict_contains. now rewrite Hget.
  - intros d v -> Hget. unfold read_field. cbn [contains rbind getitem].
    unfold dict_contains. rewrite Hget. cbn [rbind].
    now destruct (ctor v).
  - intros d ->. unfold read_field, bool_ctor. cbn [contains rbind getitem].
    unfold dict_contains. now destruct (dict_get d field).
Qed.

Lemma read_field_cases_witness :
  read_field (PDict [("is_live", PNone)]) "is_cancelled" bool_ctor = Ok None /\
  read_field (PDict [("is_live", PNone)]) "is_live" bool_ctor
  = Ok (Some false).
Proof.
  split.
  - apply (proj1 (proj2 (read_field_cases (PDict [("is_live", PNone)])
                           "is_cancelled" bool_ctor))
             [("is_live", PNone)]); reflexivity.
  - apply (proj1 (proj2 (proj2 (read_field_cases (PDict [("is_live", PNone)])
                                  "is_live" bool_ctor)))
             [("is_live", PNone)] PNone); reflexivity.
Defined.
